(** * compare-benchmarks: benchmark comparison against a baseline

    A shallow embedding of [scripts/compare-benchmarks.py] and the
    properties of its metric extractor, comparator, regression checker
    and command-line driver.

    Conventions of the embedding.
    - A benchmark document is the [dict] that [load_json] is annotated to
      return; what it holds are [value]s, the objects [json.load] builds.
      A [dict] is an association list in insertion order; the keys of a
      Python dict are pairwise distinct, which the theorems that need it
      assume as [NoDup].
    - A ratio is an IEEE 754 binary64 number, the kernel's primitive
      [float], as the script annotates it ([-> float | None]). A JSON
      integer literal, which [json.load] reads as an [int], stands for
      the binary64 of the same value: the two agree through the script's
      subtraction, division, comparisons and formatting as long as the
      integers involved are exactly representable; integers beyond that
      are outside the embedding.
    - Strings are sequences of ASCII characters.
    - Code that can raise returns a [result]. The driver [main] is a
      computation that emits events (a [print], the write of the output
      file) and ends in [sys.exit] or in an exception nobody catches. *)

From Stdlib Require Import ZArith List String Ascii Bool Floats.
From Stdlib Require Import DecimalString.
Import ListNotations.

Local Open Scope string_scope.
Local Open Scope list_scope.

Set Implicit Arguments.
Set Warnings "-inexact-float,-register-all".

(* ================================================================= *)
(** * The Python values and operations the script relies on *)

Module Py.

(** Exceptions the script can meet. [OSError] stands for the members of
    that family other than [FileNotFoundError] (permissions, a missing
    directory, a full disk, ...). *)
Inductive exn : Type :=
| TypeError
| AttributeError
| ZeroDivisionError
| FileNotFoundError
| JSONDecodeError (msg : string)
| OSError (msg : string).

Inductive result (A : Type) : Type :=
| Ok (a : A)
| Raise (e : exn).
Arguments Ok {A} a.
Arguments Raise {A} e.

Definition bind {A B} (r : result A) (k : A -> result B) : result B :=
  match r with
  | Ok a => k a
  | Raise e => Raise e
  end.

(** What [json.load] builds. JSON [null] is Python's [None]. *)
Inductive value : Type :=
| VNone
| VBool (b : bool)
| VNum (x : float)
| VStr (s : string)
| VList (l : list value)
| VDict (d : list (string * value)).

(** ** Dictionaries: association lists in insertion order *)
Section Dict.
Variable V : Type.

Definition dict := list (string * V).

(** [d.get(k)]; [k in d] is [lookup k d] being [Some], and [d[k]] is then
    its content. *)
Fixpoint lookup (k : string) (d : dict) : option V :=
  match d with
  | [] => None
  | (k', v) :: rest => if String.eqb k k' then Some v else lookup k rest
  end.

(** [d[k] = v]: an existing key keeps its place, a new one goes last. *)
Fixpoint setitem (k : string) (v : V) (d : dict) : dict :=
  match d with
  | [] => [(k, v)]
  | (k', v') :: rest =>
      if String.eqb k k' then (k, v) :: rest
      else (k', v') :: setitem k v rest
  end.

Definition keys (d : dict) : list string := map fst d.
End Dict.

(** [obj.get(key, default)]: only a dict has the method. *)
Definition method_get (obj : value) (key : string) (default : value)
  : result value :=
  match obj with
  | VDict d =>
      Ok (match lookup key d with
          | Some v => v
          | None => default
          end)
  | _ => Raise AttributeError
  end.

(** [for x in obj]: a dict yields its keys, a list its items, a string
    its characters; nothing else loaded from JSON is iterable. *)
Definition iterate (obj : value) : result (list value) :=
  match obj with
  | VDict d => Ok (map (fun kv => VStr (fst kv)) d)
  | VList l => Ok l
  | VStr s =>
      Ok (map (fun c => VStr (String c EmptyString)) (list_ascii_of_string s))
  | _ => Raise TypeError
  end.

(** [x is not None] *)
Definition is_not_None (v : value) : bool :=
  match v with
  | VNone => false
  | _ => true
  end.

(** The operand of an arithmetic operator: a number, or a bool (a
    subclass of [int]); on anything else the operator raises
    [TypeError]. *)
Definition number_of (v : value) : option float :=
  match v with
  | VNum x => Some x
  | VBool true => Some 1%float
  | VBool false => Some 0%float
  | _ => None
  end.

(** [x < y], [x > y], [x != y] on floats *)
Definition lt (x y : float) : bool := (x <? y)%float.
Definition gt (x y : float) : bool := (y <? x)%float.
Definition ne (x y : float) : bool := negb (x =? y)%float.

(** [x / y] *)
Definition truediv (x y : float) : result float :=
  if (y =? 0)%float then Raise ZeroDivisionError else Ok (x / y)%float.

(** Truth value of an optional string ([if s:]): [None] and [''] are
    false. *)
Definition truthy (s : option string) : option string :=
  match s with
  | Some EmptyString => None
  | other => other
  end.

End Py.

Import Py.

Declare Scope py_scope.
Delimit Scope py_scope with py.
Notation "x <- e ;; k" := (bind e (fun x => k))
  (at level 100, e at next level, right associativity) : py_scope.
Local Open Scope py_scope.

(* ================================================================= *)
(** * Metric extractor *)

(** [get_metric_ratio(data, metric)]; absence is [VNone]. *)
Definition get_metric_ratio (data : dict value) (metric : string)
  : result value :=
  (* the standard benchmark results format, reached when no earlier
     [return] fired *)
  let standard :=
    match lookup "metrics" data with
    | Some metrics =>
        metric_data <- method_get metrics metric (VDict []) ;;
        match metric_data with
        | VDict _ => method_get metric_data "ratio" VNone
        | _ => Ok metric_data
        end
    | None => Ok VNone
    end in
  match lookup "summary" data with
  | Some summary =>
      if String.eqb metric "EffectDiscipline" then
        method_get summary "disciplineAdvantageRatio" VNone
      else if String.eqb metric "Safety" then
        method_get summary "safetyAdvantageRatio" VNone
      else standard
  | None => standard
  end.

(* ================================================================= *)
(** * Comparator *)

(** One entry of the comparison set: the dict literal with the keys
    ['baseline'], ['current'], ['change'], ['change_pct'], ['improved']. *)
Record comparison : Type := Comparison {
  baseline : float;
  current : float;
  change : float;
  change_pct : float;
  improved : bool
}.

(** The block both branches of [compare_results] run once the two ratios
    are known not to be [None]. *)
Definition metric_comparison (baseline_ratio current_ratio : value)
  : result comparison :=
  match number_of baseline_ratio, number_of current_ratio with
  | Some b, Some c =>
      let change := (c - b)%float in
      change_pct <-
        (if ne b 0
         then q <- truediv change b ;; Ok (q * 100)%float
         else Ok 0%float) ;;
      Ok {| baseline := b;
            current := c;
            change := change;
            change_pct := change_pct;
            improved := gt change 0 |}
  | _, _ => Raise TypeError
  end.

(** Body of [for metric_name in baseline['metrics']]. A [metric_name]
    that is not a string can only come out of a list, and
    [get_metric_ratio] then calls [.get] on that list. *)
Definition compare_one (baseline current : dict value)
  (comparisons : dict comparison) (metric_name : value)
  : result (dict comparison) :=
  match metric_name with
  | VStr name =>
      baseline_ratio <- get_metric_ratio baseline name ;;
      current_ratio <- get_metric_ratio current name ;;
      if is_not_None baseline_ratio && is_not_None current_ratio then
        entry <- metric_comparison baseline_ratio current_ratio ;;
        Ok (setitem name entry comparisons)
      else Ok comparisons
  | _ => Raise AttributeError
  end.

Fixpoint compare_each (baseline current : dict value)
  (names : list value) (comparisons : dict comparison)
  : result (dict comparison) :=
  match names with
  | [] => Ok comparisons
  | metric_name :: rest =>
      comparisons' <- compare_one baseline current comparisons metric_name ;;
      compare_each baseline current rest comparisons'
  end.

(** [compare_results(baseline, current, metric=None)] *)
Definition compare_results (baseline current : dict value)
  (metric : option string) : result (dict comparison) :=
  let comparisons : dict comparison := [] in
  match truthy metric with
  | Some metric =>
      baseline_ratio <- get_metric_ratio baseline metric ;;
      current_ratio <- get_metric_ratio current metric ;;
      if is_not_None baseline_ratio && is_not_None current_ratio then
        entry <- metric_comparison baseline_ratio current_ratio ;;
        Ok (setitem metric entry comparisons)
      else Ok comparisons
  | None =>
      match lookup "metrics" baseline, lookup "metrics" current with
      | Some baseline_metrics, Some _ =>
          names <- iterate baseline_metrics ;;
          compare_each baseline current names comparisons
      | _, _ => Ok comparisons
      end
  end.

(* ================================================================= *)
(** * Text formatting *)

Module Fmt.

Definition newline : string := String (ascii_of_nat 10) EmptyString.

(** An f-string: its literal and formatted parts, joined. *)
Definition fstring (parts : list string) : string := String.concat "" parts.

(** [s * n] *)
Fixpoint repeat_string (s : string) (n : nat) : string :=
  match n with
  | O => EmptyString
  | S n' => String.append s (repeat_string s n')
  end.

(** [f"{s:<w}"] and [f"{s:>w}"] *)
Definition ljust (w : nat) (s : string) : string :=
  String.append s (repeat_string " " (w - String.length s)).
Definition rjust (w : nat) (s : string) : string :=
  String.append (repeat_string " " (w - String.length s)) s.

Definition digits_of (n : Z) : string :=
  NilZero.string_of_uint (N.to_uint (Z.to_N n)).

(** Nearest integer to [num / den] for [0 <= num], [0 < den], ties to
    even. *)
Definition round_half_even (num den : Z) : Z :=
  let q := (num / den)%Z in
  let r := (num mod den)%Z in
  match (2 * r ?= den)%Z with
  | Lt => q
  | Gt => (q + 1)%Z
  | Eq => if Z.even q then q else (q + 1)%Z
  end.

(** [|x| * 10^places] rounded to an integer, for a finite
    [|x| = m * 2^e]. *)
Definition scaled (places : nat) (m : positive) (e : Z) : Z :=
  let p10 := (10 ^ Z.of_nat places)%Z in
  if (0 <=? e)%Z then (Zpos m * 2 ^ e * p10)%Z
  else round_half_even (Zpos m * p10) (2 ^ (- e)).

(** [n], at least [places + 1] digits of it, with a point before the
    last [places]. *)
Definition fixed_digits (places : nat) (n : Z) : string :=
  let ds := digits_of n in
  let ds := String.append (repeat_string "0" (S places - String.length ds)) ds in
  let k := String.length ds - places in
  fstring [substring 0 k ds; "."; substring k places ds].

(** [f"{x:.Nf}"] and, with [plus], [f"{x:+.Nf}"], for [N >= 1]. *)
Definition fixed (plus : bool) (places : nat) (x : float) : string :=
  let sign (s : bool) := if s then "-" else if plus then "+" else "" in
  match Prim2SF x with
  | S754_nan => String.append (sign false) "nan"
  | S754_infinity s => String.append (sign s) "inf"
  | S754_zero s => String.append (sign s) (fixed_digits places 0)
  | S754_finite s m e =>
      String.append (sign s) (fixed_digits places (scaled places m e))
  end.

End Fmt.

(* ================================================================= *)
(** * Reporter *)

(** The row [print_comparison] prints for one metric. *)
Definition comparison_row (metric : string) (data : comparison) : string :=
  let change_str := Fmt.fixed true 3 data.(change) in
  let change_str :=
    if ne data.(change_pct) 0
    then Fmt.fstring [change_str; " ("; Fmt.fixed true 1 data.(change_pct); "%)"]
    else change_str in
  let indicator :=
    if data.(improved) then "+"
    else if lt data.(change) 0 then "-" else " " in
  Fmt.fstring
    [ indicator; " "; Fmt.ljust 23 metric; " ";
      Fmt.rjust 10 (Fmt.fixed false 3 data.(baseline)); " ";
      Fmt.rjust 10 (Fmt.fixed false 3 data.(current)); " ";
      Fmt.rjust 10 change_str ].

(** [print_comparison(comparisons)], as the list of printed strings. *)
Definition print_comparison (comparisons : dict comparison) : list string :=
  [ String.append Fmt.newline "Benchmark Comparison Results";
    Fmt.repeat_string "=" 60;
    Fmt.fstring [ Fmt.ljust 25 "Metric"; " "; Fmt.rjust 10 "Baseline"; " ";
                  Fmt.rjust 10 "Current"; " "; Fmt.rjust 10 "Change" ];
    Fmt.repeat_string "-" 60 ]
  ++ map (fun kv => comparison_row (fst kv) (snd kv)) comparisons
  ++ [ Fmt.repeat_string "-" 60 ].

(* ================================================================= *)
(** * Regression checker *)

(** The text appended for a regressed metric. *)
Definition regression_line (metric : string) (data : comparison) : string :=
  Fmt.fstring
    [ metric; ": "; Fmt.fixed false 3 data.(baseline); " -> ";
      Fmt.fixed false 3 data.(current);
      " ("; Fmt.fixed false 1 data.(change_pct); "%)" ].

(** [check_regression(comparisons, threshold)]: the loop appends to
    [regressions] as it walks [comparisons.items()]. *)
Definition check_regression (comparisons : dict comparison) (threshold : float)
  : list string :=
  fold_left
    (fun regressions kv =>
       let metric := fst kv in
       let data := snd kv in
       if lt data.(change) 0
          && gt (abs data.(change_pct)) (threshold * 100)%float
       then regressions ++ [regression_line metric data]
       else regressions)
    comparisons [].

(* ================================================================= *)
(** * Command-line driver *)

(** The parsed command line ([argparse.Namespace]). *)
Module Args.
Record t : Type := Make {
  baseline : string;
  current : string;
  metric : option string;
  fail_on_regression : option float;
  output : option string
}.
End Args.

(** What the files of the machine answer: for each path, the outcome of
    [open(path, 'r')] followed by [json.load], and the exception, if any,
    of writing to it. *)
Record world : Type := World {
  load : string -> result (dict value);
  write_error : string -> option exn
}.

(** [load_json(path)] *)
Definition load_json (w : world) (path : string) : result (dict value) :=
  w.(load) path.

Module Proc.

(** What a run does that can be observed. *)
Inductive event : Type :=
| Printed (text : string)
| Written (path : string) (content : dict comparison).

(** How a run ends: [sys.exit(code)], or an exception that leaves [main]
    uncaught (the interpreter then prints its traceback on the error
    stream and ends the process with status 1). *)
Inductive ending : Type :=
| Exit (code : Z)
| Uncaught (e : exn).

Inductive step (A : Type) : Type :=
| Next (a : A)
| Stop (s : ending).
Arguments Next {A} a.
Arguments Stop {A} s.

(** A command: the events it emits, then a value or the end of the
    run. *)
Definition t (A : Type) : Type := list event * step A.

Definition pure {A} (a : A) : t A := ([], Next a).

Definition seq {A B} (p : t A) (k : A -> t B) : t B :=
  match snd p with
  | Next a => (fst p ++ fst (k a), snd (k a))
  | Stop s => (fst p, Stop s)
  end.

Definition print (text : string) : t unit := ([Printed text], Next tt).

Definition sys_exit {A} (code : Z) : t A := ([], Stop (Exit code)).

Definition throw {A} (e : exn) : t A := ([], Stop (Uncaught e)).

(** A call that may raise, outside any [try]. *)
Definition call {A} (r : result A) : t A :=
  match r with
  | Ok a => pure a
  | Raise e => throw e
  end.

(** [for line in lines: print(prefix + line)] *)
Fixpoint print_each (prefix : string) (lines : list string) : t unit :=
  match lines with
  | [] => pure tt
  | line :: rest =>
      seq (print (String.append prefix line)) (fun _ => print_each prefix rest)
  end.

(** The events of a whole run and its ending; a [main] that returned
    would end the interpreter with status 0. *)
Definition run (p : t unit) : list event * ending :=
  (fst p, match snd p with
          | Next _ => Exit 0
          | Stop s => s
          end).

End Proc.

Notation "x <~ e ;; k" := (Proc.seq e (fun x => k))
  (at level 100, e at next level, right associativity) : py_scope.
Notation "e ;;; k" := (Proc.seq e (fun _ => k))
  (at level 100, right associativity) : py_scope.

(** [with open(path, 'w') as f: json.dump(comparisons, f, indent=2)] *)
Definition dump_json (w : world) (path : string) (comparisons : dict comparison)
  : Proc.t unit :=
  match w.(write_error) path with
  | None => ([Proc.Written path comparisons], Proc.Next tt)
  | Some e => Proc.throw e
  end.

(** A [try] block around [load_json]: [Which] and [which] are the words
    "Baseline"/"baseline" or "Current"/"current" of its two messages. *)
Definition load_or_exit (w : world) (Which which path : string)
  : Proc.t (dict value) :=
  match load_json w path with
  | Ok data => Proc.pure data
  | Raise FileNotFoundError =>
      Proc.print (Fmt.fstring ["Error: "; Which; " file not found: "; path]) ;;;
      Proc.sys_exit 1
  | Raise (JSONDecodeError e) =>
      Proc.print (Fmt.fstring ["Error: Invalid JSON in "; which; " file: "; e]) ;;;
      Proc.sys_exit 1
  | Raise e => Proc.throw e
  end.

(** [f"{threshold * 100:.1f}"] *)
Definition percent (threshold : float) : string :=
  Fmt.fixed false 1 (threshold * 100)%float.

(** [f"\nERROR: Regressions detected (threshold: {threshold * 100:.1f}%):"] *)
Definition regressions_header (threshold : float) : string :=
  Fmt.fstring [Fmt.newline; "ERROR: Regressions detected (threshold: ";
               percent threshold; "%):"].

(** [f"\nComparison saved to: {path}"] *)
Definition saved_line (path : string) : string :=
  Fmt.fstring [Fmt.newline; "Comparison saved to: "; path].

(** The block under [if args.fail_on_regression is not None]. *)
Definition report_regressions (comparisons : dict comparison) (threshold : float)
  : Proc.t unit :=
  let regressions := check_regression comparisons threshold in
  match regressions with
  | _ :: _ =>
      Proc.print (regressions_header threshold) ;;;
      Proc.print_each "  - " regressions ;;;
      Proc.sys_exit 1
  | [] =>
      Proc.print
        (Fmt.fstring [Fmt.newline; "No regressions detected (threshold: ";
                      percent threshold; "%)"])
  end.

(** [main()], after [parser.parse_args()]. *)
Definition main (w : world) (args : Args.t) : Proc.t unit :=
  (* Load data *)
  baseline <~ load_or_exit w "Baseline" "baseline" args.(Args.baseline) ;;
  current <~ load_or_exit w "Current" "current" args.(Args.current) ;;
  (* Compare *)
  comparisons <~ Proc.call (compare_results baseline current args.(Args.metric)) ;;
  match comparisons with
  | [] =>
      Proc.print "No comparable metrics found" ;;;
      Proc.sys_exit 1
  | _ :: _ =>
      (* Print results *)
      Proc.print_each "" (print_comparison comparisons) ;;;
      (* Output to file if requested *)
      match truthy args.(Args.output) with
      | Some path =>
          dump_json w path comparisons ;;;
          Proc.print (saved_line path)
      | None => Proc.pure tt
      end ;;;
      (* Check for regressions *)
      match args.(Args.fail_on_regression) with
      | Some threshold => report_regressions comparisons threshold
      | None => Proc.pure tt
      end ;;;
      Proc.sys_exit 0
  end.

(* ================================================================= *)
(** * The documents of the data model *)

Definition is_mapping (v : value) : bool :=
  match v with
  | VDict _ => true
  | _ => false
  end.

(** A benchmark document: its [summary] and its [metrics], when it has
    them, are mappings. *)
Definition well_shaped (data : dict value) : bool :=
  match lookup "summary" data with
  | Some v => is_mapping v
  | None => true
  end
  && match lookup "metrics" data with
     | Some v => is_mapping v
     | None => true
     end.

(** A ratio as a document stores it: a number, or [null]. *)
Definition ratio_or_null (v : value) : bool :=
  match v with
  | VNone | VNum _ => true
  | _ => false
  end.

Definition optional_ratio (key : string) (d : dict value) : bool :=
  match lookup key d with
  | Some v => ratio_or_null v
  | None => true
  end.

(** An entry of [metrics]: a bare ratio, or a mapping whose [ratio], if it
    has one, is a ratio. *)
Definition valid_entry (v : value) : bool :=
  match v with
  | VDict e => optional_ratio "ratio" e
  | _ => ratio_or_null v
  end.

(** A document whose ratios, wherever the extractor reads them, are
    numbers. *)
Definition valid_document (data : dict value) : bool :=
  match lookup "summary" data with
  | None => true
  | Some (VDict s) =>
      optional_ratio "disciplineAdvantageRatio" s
      && optional_ratio "safetyAdvantageRatio" s
  | Some _ => false
  end
  && match lookup "metrics" data with
     | None => true
     | Some (VDict ms) => forallb (fun kv => valid_entry (snd kv)) ms
     | Some _ => false
     end.

(** The key of [summary] that answers for a metric, if any. *)
Definition summary_key (metric : string) : option string :=
  if String.eqb metric "EffectDiscipline" then Some "disciplineAdvantageRatio"
  else if String.eqb metric "Safety" then Some "safetyAdvantageRatio"
  else None.

(** Extraction reaches the [metrics] step: the document has no [summary],
    or the metric is not one the summary answers for. *)
Definition reads_metrics (data : dict value) (metric : string) : bool :=
  match lookup "summary" data, summary_key metric with
  | Some _, Some _ => false
  | _, _ => true
  end.

(** [data] with the key [k] deleted. *)
Definition without (k : string) (data : dict value) : dict value :=
  filter (fun kv => negb (String.eqb k (fst kv))) data.

(** Extraction of [name] yields a value other than [None] from both
    documents. *)
Definition both_present (baseline current : dict value) (name : string) : bool :=
  match get_metric_ratio baseline name, get_metric_ratio current name with
  | Ok b, Ok c => is_not_None b && is_not_None c
  | _, _ => false
  end.

(** How an entry of a comparison set came about: both documents gave a
    number for its name. *)
Definition built_from (baseline current : dict value) (kv : string * comparison)
  : Prop :=
  exists vb vc,
    get_metric_ratio baseline (fst kv) = Ok vb
    /\ get_metric_ratio current (fst kv) = Ok vc
    /\ metric_comparison vb vc = Ok (snd kv).

(** The test of the regression checker, in the words of its contract:
    [change < 0] and [abs(change_pct) > threshold * 100]. *)
Definition is_regression (threshold : float) (data : comparison) : bool :=
  lt data.(change) 0 && gt (abs data.(change_pct)) (threshold * 100)%float.

(** [x == 0] *)
Definition is_zero_ratio (x : float) : bool := (x =? 0)%float.

(** What the regression stage of a run emits: nothing without
    [--fail-on-regression]. *)
Definition regression_stage (comparisons : dict comparison)
  (fail_on_regression : option float) : list Proc.event :=
  match fail_on_regression with
  | Some threshold => fst (report_regressions comparisons threshold)
  | None => []
  end.

(** How a run that got through its output stage ends. *)
Definition final_status (comparisons : dict comparison)
  (fail_on_regression : option float) : Proc.ending :=
  match fail_on_regression with
  | Some threshold =>
      match check_regression comparisons threshold with
      | [] => Proc.Exit 0
      | _ :: _ => Proc.Exit 1
      end
  | None => Proc.Exit 0
  end.

(* ================================================================= *)
(** * Sample documents and runs *)

Module Sample.

(** [{"metrics": {"Throughput": {"ratio": r}}}] *)
Definition throughput (r : float) : dict value :=
  [("metrics", VDict [("Throughput", VDict [("ratio", VNum r)])])].

(** [{"summary": {"disciplineAdvantageRatio": d, "safetyAdvantageRatio": s}}] *)
Definition discipline (d s : float) : dict value :=
  [("summary", VDict [("disciplineAdvantageRatio", VNum d);
                      ("safetyAdvantageRatio", VNum s)])].

(** A document of both shapes, with a different [EffectDiscipline] in
    each, and a bare [Throughput]. *)
Definition both_shapes : dict value :=
  [("summary", VDict [("disciplineAdvantageRatio", VNum 1.5)]);
   ("metrics", VDict [("EffectDiscipline", VDict [("ratio", VNum 9)]);
                      ("Throughput", VNum 2)])].


(** [{"metrics": {"A": 1e999}}]: the literal overflows to infinity. *)
Definition infinite_ratio : dict value :=
  [("metrics", VDict [("A", VNum infinity)])].

(** [{"metrics": {"A": 0, "B": {"ratio": 1.0}, "C": null, "D": 4.0}}]
    against [{"metrics": {"D": 5.0, "B": 0.9, "A": -3.0}}]. *)
Definition mixed_baseline : dict value :=
  [("metrics", VDict [("A", VNum 0); ("B", VDict [("ratio", VNum 1)]);
                      ("C", VNone); ("D", VNum 4)])].
Definition mixed_current : dict value :=
  [("metrics", VDict [("D", VNum 5); ("B", VNum 0.9); ("A", VNum (-3))])].

(** What comparing them gives: A has a zero baseline, C no baseline. *)
Definition mixed_result : dict comparison :=
  [("A", {| baseline := 0; current := -3; change := -3;
            change_pct := 0; improved := false |});
   ("B", {| baseline := 1; current := 0.9; change := 0.9 - 1;
            change_pct := (0.9 - 1) / 1 * 100; improved := false |});
   ("D", {| baseline := 4; current := 5; change := 1;
            change_pct := 25; improved := true |})].

(** The files of a machine: [base.json] and [cur.json] hold the
    Throughput documents 2.0 and 1.8, [broken.json] is not JSON, nothing
    else exists. [out.json] can be written, the directory [missing]
    does not exist, and no other path is writable. *)
Definition files : world :=
  {| load := fun path =>
       if String.eqb path "base.json" then Ok (throughput 2)
       else if String.eqb path "cur.json" then Ok (throughput 1.8)
       else if String.eqb path "broken.json" then
         Raise (JSONDecodeError "Expecting value: line 1 column 1 (char 0)")
       else Raise FileNotFoundError;
     write_error := fun path =>
       if String.eqb path "out.json" then None
       else if String.eqb path "missing/out.json" then Some FileNotFoundError
       else Some (OSError "[Errno 13] Permission denied") |}.

(** Command lines: both run [base.json] against [cur.json] with
    [--fail-on-regression 0.05]; [output] is the [--output] option. *)
Definition command (output : option string) : Args.t :=
  {| Args.baseline := "base.json";
     Args.current := "cur.json";
     Args.metric := None;
     Args.fail_on_regression := Some 0.05%float;
     Args.output := output |}.

(** A command line comparing two given files, with no other option. *)
Definition plain (baseline current : string) (metric : option string) : Args.t :=
  {| Args.baseline := baseline;
     Args.current := current;
     Args.metric := metric;
     Args.fail_on_regression := None;
     Args.output := None |}.

Definition throughput_entry : comparison :=
  {| baseline := 2; current := 1.8;
     change := 1.8 - 2; change_pct := (1.8 - 2) / 2 * 100;
     improved := false |}.

End Sample.

(* ================================================================= *)
(** * Descriptions used by the further properties *)

(** The object whose [.get] the extractor calls first: the summary for
    the two metrics it answers for, the [metrics] mapping otherwise. *)
Definition consulted (data : dict value) (metric : string) : option value :=
  match lookup "summary" data, summary_key metric with
  | Some summary, Some _ => Some summary
  | _, _ => lookup "metrics" data
  end.


(** The two documents hold the same [summary] and the same [metrics]. *)
Definition same_sections (d1 d2 : dict value) : Prop :=
  lookup "summary" d1 = lookup "summary" d2
  /\ lookup "metrics" d1 = lookup "metrics" d2.

(** What a run does when a document fails to load with [e]. *)
Definition failed_load (Which which path : string) (e : exn)
  : list Proc.event * Proc.ending :=
  match e with
  | FileNotFoundError =>
      ([Proc.Printed (Fmt.fstring ["Error: "; Which; " file not found: "; path])],
       Proc.Exit 1)
  | JSONDecodeError msg =>
      ([Proc.Printed (Fmt.fstring ["Error: Invalid JSON in "; which; " file: "; msg])],
       Proc.Exit 1)
  | _ => ([], Proc.Uncaught e)
  end.

(** What a run does from a comparison set that is not empty. *)
Definition compared_outcome (w : world) (args : Args.t) (cs : dict comparison)
  : list Proc.event * Proc.ending :=
  match truthy args.(Args.output) with
  | Some path =>
      match w.(write_error) path with
      | Some e => (map Proc.Printed (print_comparison cs), Proc.Uncaught e)
      | None =>
          (map Proc.Printed (print_comparison cs)
             ++ [Proc.Written path cs; Proc.Printed (saved_line path)]
             ++ regression_stage cs args.(Args.fail_on_regression),
           final_status cs args.(Args.fail_on_regression))
      end
  | None =>
      (map Proc.Printed (print_comparison cs)
         ++ regression_stage cs args.(Args.fail_on_regression),
       final_status cs args.(Args.fail_on_regression))
  end.

(** A whole run, case by case: its events and its ending. *)
Definition main_outcome (w : world) (args : Args.t)
  : list Proc.event * Proc.ending :=
  match load w args.(Args.baseline) with
  | Raise e => failed_load "Baseline" "baseline" args.(Args.baseline) e
  | Ok base =>
      match load w args.(Args.current) with
      | Raise e => failed_load "Current" "current" args.(Args.current) e
      | Ok cur =>
          match compare_results base cur args.(Args.metric) with
          | Raise e => ([], Proc.Uncaught e)
          | Ok [] =>
              ([Proc.Printed "No comparable metrics found"], Proc.Exit 1)
          | Ok cs => compared_outcome w args cs
          end
      end
  end.




Module More.

(** [{"generated": "2024-01-01", "metrics": {"Throughput": r}, "host": "ci"}] *)
Definition annotated (r : float) : dict value :=
  [("generated", VStr "2024-01-01");
   ("metrics", VDict [("Throughput", VNum r)]);
   ("host", VStr "ci")].


(** [{"summary": 5, "metrics": {"Throughput": 2.0}}]: the summary is no
    mapping. *)
Definition broken_summary : dict value :=
  [("summary", VNum 5); ("metrics", VDict [("Throughput", VNum 2)])].

(** [{"metrics": {"Latency": 3.0}}] *)
Definition latency_only : dict value :=
  [("metrics", VDict [("Latency", VNum 3)])].

End More.
Unset Implicit Arguments.

(* ================================================================= *)
(** * Facts about dictionaries *)

Section DictFacts.
Variable V : Type.
Implicit Types (d : dict V) (k : string) (v : V).

Lemma setitem_fresh d k v :
  lookup k d = None -> setitem k v d = d ++ [(k, v)].
Proof.
  induction d as [|[k' v'] rest IH]; simpl; [reflexivity|].
  destruct (String.eqb k k'); [discriminate|].
  intros H. now rewrite IH.
Qed.

Lemma In_setitem d k v kv :
  In kv (setitem k v d) -> kv = (k, v) \/ In kv d.
Proof.
  induction d as [|[k' v'] rest IH]; simpl.
  - intros [<-|[]]. now left.
  - destruct (String.eqb k k'); simpl.
    + intros [<-|Hin]; [now left | right; now right].
    + intros [<-|Hin]; [right; now left|].
      destruct (IH Hin) as [->|Hin']; [now left | right; now right].
Qed.
End DictFacts.

Lemma lookup_without_other (data : dict value) k k' :
  k' <> k -> lookup k' (without k data) = lookup k' data.
Proof.
  intros Hne. induction data as [|[k0 v0] rest IH]; simpl; [reflexivity|].
  destruct (String.eqb_spec k k0) as [->|Hk]; simpl.
  - destruct (String.eqb_spec k' k0); [contradiction | exact IH].
  - destruct (String.eqb k' k0); [reflexivity | exact IH].
Qed.

Lemma lookup_without_same (data : dict value) k :
  lookup k (without k data) = None.
Proof.
  induction data as [|[k0 v0] rest IH]; simpl; [reflexivity|].
  destruct (String.eqb_spec k k0) as [->|Hk]; simpl; [exact IH|].
  destruct (String.eqb_spec k k0); [contradiction | exact IH].
Qed.

(* ================================================================= *)
(** * Regression checker *)

(** The loop of [check_regression], started from any list of lines
    already found. *)
Lemma check_regression_loop threshold comparisons : forall found,
  fold_left
    (fun regressions kv =>
       if lt (snd kv).(change) 0
          && gt (abs (snd kv).(change_pct)) (threshold * 100)%float
       then regressions ++ [regression_line (fst kv) (snd kv)]
       else regressions)
    comparisons found
  = found ++ map (fun kv => regression_line (fst kv) (snd kv))
               (filter (fun kv => is_regression threshold (snd kv)) comparisons).
Proof.
  induction comparisons as [|kv rest IH]; intros found; simpl.
  - now rewrite app_nil_r.
  - rewrite IH. unfold is_regression at 2.
    destruct (lt _ _ && gt _ _); simpl; [|reflexivity].
    now rewrite <- app_assoc.
Qed.


(** The spec's example: A fell by 10%, B by 2%, C rose by 5%; at a
    threshold of 0.05 only A is reported. *)
Example check_regression_reports_A_only :
  check_regression
    [("A", {| baseline := 1; current := 0.9; change := 0.9 - 1;
              change_pct := (0.9 - 1) / 1 * 100; improved := false |});
     ("B", {| baseline := 1; current := 0.98; change := 0.98 - 1;
              change_pct := (0.98 - 1) / 1 * 100; improved := false |});
     ("C", {| baseline := 1; current := 1.05; change := 1.05 - 1;
              change_pct := (1.05 - 1) / 1 * 100; improved := true |})]
    0.05
  = ["A: 1.000 -> 0.900 (-10.0%)"].
Proof. vm_compute. reflexivity. Qed.

(* ================================================================= *)
(** * Metric extractor *)

Lemma method_get_mapping obj key default :
  is_mapping obj = true ->
  exists v, method_get obj key default = Ok v.
Proof.
  destruct obj; simpl; try discriminate. intros _. eauto.
Qed.

(** The only exception [get_metric_ratio] can raise is the
    [AttributeError] of a [.get] on something that is no dict. *)
Lemma get_metric_ratio_raises data metric e :
  get_metric_ratio data metric = Raise e -> e = AttributeError.
Proof.
  assert (Hget : forall obj key default,
             method_get obj key default = Raise e -> e = AttributeError).
  { intros [] key default; simpl; congruence. }
  unfold get_metric_ratio.
  assert (Hstd :
            match lookup "metrics" data with
            | Some metrics =>
                metric_data <- method_get metrics metric (VDict []) ;;
                match metric_data with
                | VDict _ => method_get metric_data "ratio" VNone
                | _ => Ok metric_data
                end
            | None => Ok VNone
            end = Raise e -> e = AttributeError).
  { destruct (lookup "metrics" data) as [metrics|]; [|discriminate].
    destruct (method_get metrics metric (VDict [])) as [md|e'] eqn:E; simpl.
    - destruct md; discriminate.
    - intros [= <-]. eapply Hget. exact E. }
  destruct (lookup "summary" data) as [summary|]; [|exact Hstd].
  destruct (String.eqb metric "EffectDiscipline"); [apply Hget|].
  destruct (String.eqb metric "Safety"); [apply Hget | exact Hstd].
Qed.

(** What the [metrics] step answers on a well-shaped document. *)
Lemma get_metric_ratio_metrics_step data metric :
  reads_metrics data metric = true ->
  get_metric_ratio data metric
  = match lookup "metrics" data with
    | Some metrics =>
        metric_data <- method_get metrics metric (VDict []) ;;
        match metric_data with
        | VDict _ => method_get metric_data "ratio" VNone
        | _ => Ok metric_data
        end
    | None => Ok VNone
    end.
Proof.
  unfold reads_metrics, summary_key, get_metric_ratio.
  destruct (lookup "summary" data); [|reflexivity].
  destruct (String.eqb metric "EffectDiscipline"); [discriminate|].
  destruct (String.eqb metric "Safety"); [discriminate | reflexivity].
Qed.

Lemma get_metric_ratio_summary_step data metric summary key :
  lookup "summary" data = Some summary ->
  summary_key metric = Some key ->
  get_metric_ratio data metric = method_get summary key VNone.
Proof.
  unfold summary_key, get_metric_ratio. intros -> Hkey.
  destruct (String.eqb metric "EffectDiscipline"); [now inversion Hkey|].
  destruct (String.eqb metric "Safety"); [now inversion Hkey | discriminate].
Qed.

Lemma well_shaped_total data metric :
  well_shaped data = true ->
  exists v, get_metric_ratio data metric = Ok v.
Proof.
  unfold well_shaped. intros [Hs Hm]%andb_prop.
  destruct (reads_metrics data metric) eqn:Hreads.
  - rewrite get_metric_ratio_metrics_step by assumption.
    destruct (lookup "metrics" data) as [[| | | | |metrics]|];
      try discriminate; simpl; [|eauto].
    destruct (lookup metric metrics) as [[]|]; simpl; eauto.
  - unfold reads_metrics in Hreads.
    destruct (lookup "summary" data) as [summary|] eqn:Hsum; [|discriminate].
    destruct (summary_key metric) as [key|] eqn:Hkey; [|discriminate].
    rewrite (get_metric_ratio_summary_step _ _ _ _ Hsum Hkey).
    now apply method_get_mapping.
Qed.

(** A document whose ratios are numbers is well shaped. *)
Lemma valid_document_well_shaped data :
  valid_document data = true -> well_shaped data = true.
Proof.
  unfold valid_document, well_shaped. intros [Hs Hm]%andb_prop.
  apply andb_true_intro. split.
  - destruct (lookup "summary" data) as [[]|]; try discriminate; reflexivity.
  - destruct (lookup "metrics" data) as [[]|]; try discriminate; reflexivity.
Qed.

(** C5: on a valid document (one whose [summary] and [metrics], when
    present, are mappings) [get_metric_ratio] returns for every metric
    name, and a summary without the metric's key, a document without
    [metrics], a [metrics] without the metric and an entry without
    [ratio] each give [None], never an exception. *)
Theorem get_metric_ratio_never_raises (data : dict value) (metric : string) :
  well_shaped data = true ->
  (exists v, get_metric_ratio data metric = Ok v)
  /\ (forall summary key,
        lookup "summary" data = Some (VDict summary) ->
        summary_key metric = Some key ->
        lookup key summary = None ->
        get_metric_ratio data metric = Ok VNone)
  /\ (reads_metrics data metric = true ->
      lookup "metrics" data = None ->
      get_metric_ratio data metric = Ok VNone)
  /\ (forall metrics,
        reads_metrics data metric = true ->
        lookup "metrics" data = Some (VDict metrics) ->
        lookup metric metrics = None ->
        get_metric_ratio data metric = Ok VNone)
  /\ (forall metrics entry,
        reads_metrics data metric = true ->
        lookup "metrics" data = Some (VDict metrics) ->
        lookup metric metrics = Some (VDict entry) ->
        lookup "ratio" entry = None ->
        get_metric_ratio data metric = Ok VNone).
Proof.
  intros Hshape. split; [now apply well_shaped_total|].
  repeat split.
  - intros summary key Hsum Hkey Hmiss.
    rewrite (get_metric_ratio_summary_step _ _ _ _ Hsum Hkey). simpl.
    now rewrite Hmiss.
  - intros Hreads Hmiss.
    rewrite get_metric_ratio_metrics_step by assumption. now rewrite Hmiss.
  - intros metrics Hreads Hm Hmiss.
    rewrite get_metric_ratio_metrics_step by assumption. rewrite Hm. simpl.
    now rewrite Hmiss.
  - intros metrics entry Hreads Hm Hentry Hmiss.
    rewrite get_metric_ratio_metrics_step by assumption. rewrite Hm. simpl.
    rewrite Hentry. simpl. now rewrite Hmiss.
Qed.

Lemma get_metric_ratio_never_raises_witness :
  (exists v, get_metric_ratio Sample.both_shapes "Safety" = Ok v)
  /\ get_metric_ratio Sample.both_shapes "Safety" = Ok VNone
  /\ get_metric_ratio Sample.both_shapes "Latency" = Ok VNone.
Proof.
  destruct (get_metric_ratio_never_raises Sample.both_shapes "Safety" eq_refl)
    as (Htotal & Hsummary & _).
  destruct (get_metric_ratio_never_raises Sample.both_shapes "Latency" eq_refl)
    as (_ & _ & _ & Hentry & _).
  split; [exact Htotal|]. split.
  - exact (Hsummary _ _ eq_refl eq_refl eq_refl).
  - exact (Hentry _ eq_refl eq_refl eq_refl).
Defined.

(** C3: the summary is consulted before [metrics]: a document with a
    [summary.disciplineAdvantageRatio] yields that value for
    [EffectDiscipline] whatever its [metrics] hold; and for a metric other
    than [EffectDiscipline] and [Safety] a document with a summary answers
    as the same document without it does, so that a bare ratio under
    [metrics] is returned and not [None]. *)
Theorem discipline_checked_first (data : dict value) (metric : string) :
  (forall summary v,
     lookup "summary" data = Some (VDict summary) ->
     lookup "disciplineAdvantageRatio" summary = Some v ->
     get_metric_ratio data "EffectDiscipline" = Ok v)
  /\ (forall summary,
        lookup "summary" data = Some summary ->
        metric <> "EffectDiscipline" ->
        metric <> "Safety" ->
        get_metric_ratio data metric
        = get_metric_ratio (without "summary" data) metric
        /\ forall metrics x,
            lookup "metrics" data = Some (VDict metrics) ->
            lookup metric metrics = Some (VNum x) ->
            get_metric_ratio data metric = Ok (VNum x)).
Proof.
  split.
  - intros summary v Hsum Hkey.
    rewrite (get_metric_ratio_summary_step data "EffectDiscipline" _ _ Hsum eq_refl).
    simpl. now rewrite Hkey.
  - intros summary Hsum Hed Hsafety.
    assert (Hreads : reads_metrics data metric = true).
    { unfold reads_metrics, summary_key.
      destruct (String.eqb_spec metric "EffectDiscipline"); [contradiction|].
      destruct (String.eqb_spec metric "Safety"); [contradiction|].
      now destruct (lookup "summary" data). }
    split.
    + rewrite get_metric_ratio_metrics_step by assumption.
      rewrite get_metric_ratio_metrics_step.
      * now rewrite lookup_without_other by discriminate.
      * unfold reads_metrics. now rewrite lookup_without_same.
    + intros metrics x Hm Hx.
      rewrite get_metric_ratio_metrics_step by assumption.
      rewrite Hm. simpl. now rewrite Hx.
Qed.

Lemma discipline_checked_first_witness :
  get_metric_ratio Sample.both_shapes "EffectDiscipline" = Ok (VNum 1.5)
  /\ get_metric_ratio Sample.both_shapes "Throughput"
     = get_metric_ratio (without "summary" Sample.both_shapes) "Throughput"
  /\ get_metric_ratio Sample.both_shapes "Throughput" = Ok (VNum 2).
Proof.
  destruct (discipline_checked_first Sample.both_shapes "Throughput")
    as [Hfirst Hthrough].
  split; [exact (Hfirst _ _ eq_refl eq_refl)|].
  assert (H1 : "Throughput" <> "EffectDiscipline") by discriminate.
  assert (H2 : "Throughput" <> "Safety") by discriminate.
  destruct (Hthrough _ eq_refl H1 H2) as [Hsame Hbare].
  split; [exact Hsame | exact (Hbare _ _ eq_refl eq_refl)].
Defined.

(* ================================================================= *)
(** * Facts about binary64 arithmetic *)

Module FloatFacts.
Local Open Scope float_scope.

Lemma Prim2SF_zero : Prim2SF 0 = S754_zero false.
Proof. reflexivity. Qed.

Lemma Prim2SF_hundred : exists m e, Prim2SF 100 = S754_finite false m e.
Proof. do 2 eexists. vm_compute. reflexivity. Qed.

(** A finite float is a zero or a finite [spec_float]. *)
Lemma finite_cases x :
  is_finite x = true ->
  (exists s, Prim2SF x = S754_zero s)
  \/ (exists s m e, Prim2SF x = S754_finite s m e).
Proof.
  unfold is_finite, is_nan, is_infinity.
  rewrite !eqb_spec, abs_spec.
  destruct (Prim2SF x) as [s|s| |s m e]; eauto.
  - (* infinity *)
    change (Prim2SF infinity) with (S754_infinity false). simpl.
    rewrite orb_true_r. discriminate.
  - (* nan *) simpl. discriminate.
Qed.

Lemma eqb_zero_cases x :
  (x =? 0) = true <-> exists s, Prim2SF x = S754_zero s.
Proof.
  rewrite eqb_spec, Prim2SF_zero.
  destruct (Prim2SF x) as [s|s| |s m e]; simpl; split;
    try discriminate; eauto; try (intros [s' H]; discriminate).
  - destruct s; discriminate.
  - destruct s; discriminate.
Qed.

(** [x - x] is [+0] for every finite [x]. *)
Lemma sub_diag_finite x : is_finite x = true -> x - x = 0.
Proof.
  intros Hfin. apply Prim2SF_inj. rewrite sub_spec, Prim2SF_zero.
  destruct (finite_cases x Hfin) as [[s ->]|(s & m & e & ->)].
  - now destruct s.
  - unfold SF64sub, SFsub. rewrite Z.sub_diag. reflexivity.
Qed.

(** A zero divided by a finite non-zero float, times 100, is a zero. *)
Lemma zero_div_mul_hundred z x :
  (z =? 0) = true -> is_finite x = true -> (x =? 0) = false ->
  (z / x * 100 =? 0) = true.
Proof.
  intros [sz Hz]%eqb_zero_cases Hfin Hnz.
  apply eqb_zero_cases. rewrite mul_spec, div_spec, Hz.
  destruct (finite_cases x Hfin) as [[s Hx]|(s & m & e & ->)].
  - assert (Hzero : (x =? 0) = true) by (apply eqb_zero_cases; eauto).
    congruence.
  - destruct Prim2SF_hundred as (m' & e' & ->). simpl. eauto.
Qed.

(** For a threshold that is not negative, nothing that equals zero
    exceeds [threshold * 100]. *)
Lemma nonneg_threshold_not_below_zero t :
  (0 <=? t) = true -> (t * 100 <? 0) = false.
Proof.
  rewrite leb_spec, ltb_spec, mul_spec, Prim2SF_zero.
  destruct Prim2SF_hundred as (m' & e' & ->).
  destruct (Prim2SF t) as [s|s| |s m e]; simpl.
  - reflexivity.
  - destruct s; [discriminate | reflexivity].
  - discriminate.
  - destruct s; [discriminate|]. intros _.
    unfold SF64mul, SFmul, binary_round_aux. simpl xorb.
    destruct (shr_fexp _ _ _ _ _) as [mrs' e1].
    destruct (shr_fexp _ _ _ _ _) as [mrs'' e2].
    destruct (shr_m mrs'') as [|p|p]; try reflexivity.
    destruct (Z.leb e2 _); reflexivity.
Qed.

End FloatFacts.

(* ================================================================= *)
(** * Comparator *)

(** A comparison of two numbers is always built, and this is it. *)
Lemma metric_comparison_numbers vb vc x y :
  number_of vb = Some x ->
  number_of vc = Some y ->
  metric_comparison vb vc
  = Ok {| baseline := x;
          current := y;
          change := y - x;
          change_pct := if (x =? 0)%float then 0 else ((y - x) / x * 100);
          improved := (0 <? y - x) |}%float.
Proof.
  intros Hx Hy. unfold metric_comparison, ne, truediv, gt. rewrite Hx, Hy.
  now destruct (x =? 0)%float.
Qed.

(** Nothing but numbers can be compared. *)
Lemma metric_comparison_inv vb vc d :
  metric_comparison vb vc = Ok d ->
  exists x y,
    number_of vb = Some x /\ number_of vc = Some y
    /\ d = {| baseline := x;
              current := y;
              change := y - x;
              change_pct := if (x =? 0)%float then 0 else ((y - x) / x * 100);
              improved := (0 <? y - x) |}%float.
Proof.
  intros H.
  assert (Hnum : exists x y, number_of vb = Some x /\ number_of vc = Some y).
  { unfold metric_comparison in H.
    destruct (number_of vb) as [x|]; [|discriminate].
    destruct (number_of vc) as [y|]; [|discriminate]. eauto. }
  destruct Hnum as (x & y & Hx & Hy).
  rewrite (metric_comparison_numbers _ _ _ _ Hx Hy) in H.
  injection H as <-. exists x, y. auto.
Qed.

Lemma metric_comparison_raises vb vc e :
  metric_comparison vb vc = Raise e -> e = TypeError.
Proof.
  destruct (number_of vb) as [x|] eqn:Hx.
  - destruct (number_of vc) as [y|] eqn:Hy.
    + now rewrite (metric_comparison_numbers _ _ _ _ Hx Hy).
    + unfold metric_comparison. rewrite Hx, Hy. congruence.
  - unfold metric_comparison. rewrite Hx. congruence.
Qed.

Lemma number_is_not_None v x : number_of v = Some x -> is_not_None v = true.
Proof. destruct v; simpl; congruence. Qed.


Lemma lookup_In (V : Type) (d : dict V) k v :
  lookup k d = Some v -> In (k, v) d.
Proof.
  induction d as [|[k' v'] rest IH]; simpl; [discriminate|].
  destruct (String.eqb_spec k k') as [->|_].
  - intros [= ->]. now left.
  - intros H. right. now apply IH.
Qed.

Lemma lookup_app_fresh (V : Type) (d : dict V) k k' v :
  k <> k' -> lookup k d = None -> lookup k (d ++ [(k', v)]) = None.
Proof.
  intros Hne. induction d as [|[k0 v0] rest IH]; simpl.
  - now destruct (String.eqb_spec k k').
  - destruct (String.eqb k k0); [discriminate | exact IH].
Qed.

(** One turn of the loop over a metric name: the set is left alone, or
    gains the comparison of the two ratios under that name. *)
Lemma compare_one_inv baseline current comparisons name cs :
  compare_one baseline current comparisons (VStr name) = Ok cs ->
  (both_present baseline current name = false /\ cs = comparisons)
  \/ (both_present baseline current name = true
      /\ exists d, built_from baseline current (name, d)
                   /\ cs = setitem name d comparisons).
Proof.
  unfold compare_one, both_present, built_from. simpl.
  destruct (get_metric_ratio baseline name) as [vb|]; [|discriminate].
  destruct (get_metric_ratio current name) as [vc|]; [|discriminate].
  simpl. destruct (is_not_None vb && is_not_None vc).
  - destruct (metric_comparison vb vc) as [d|] eqn:Hd; [|discriminate].
    simpl. intros [= <-]. right. split; [reflexivity|]. exists d. eauto 6.
  - intros [= <-]. now left.
Qed.

Lemma compare_one_raises baseline current comparisons metric_name e :
  compare_one baseline current comparisons metric_name = Raise e ->
  e = AttributeError \/ e = TypeError.
Proof.
  destruct metric_name as [| | |name| |]; simpl; try (intros [= <-]; now left).
  destruct (get_metric_ratio baseline name) as [vb|e1] eqn:Hb; simpl.
  2:{ intros [= <-]. left. eapply get_metric_ratio_raises; eassumption. }
  destruct (get_metric_ratio current name) as [vc|e2] eqn:Hc; simpl.
  2:{ intros [= <-]. left. eapply get_metric_ratio_raises; eassumption. }
  destruct (is_not_None vb && is_not_None vc); [|discriminate].
  destruct (metric_comparison vb vc) as [d|e3] eqn:Hd; [discriminate|].
  simpl. intros [= <-]. right. eapply metric_comparison_raises; eassumption.
Qed.

Lemma compare_each_raises baseline current names : forall comparisons e,
  compare_each baseline current names comparisons = Raise e ->
  e = AttributeError \/ e = TypeError.
Proof.
  induction names as [|n rest IH]; intros comparisons e; simpl; [discriminate|].
  destruct (compare_one baseline current comparisons n) as [cs|e1] eqn:H1; simpl.
  - apply IH.
  - intros [= <-]. eapply compare_one_raises; eassumption.
Qed.

(** Every entry the loop leaves in the set was there before or was built
    from the two documents. *)
Lemma compare_each_entries baseline current names : forall comparisons cs,
  compare_each baseline current names comparisons = Ok cs ->
  forall kv, In kv cs -> In kv comparisons \/ built_from baseline current kv.
Proof.
  induction names as [|n rest IH]; intros comparisons cs; simpl.
  - intros [= <-] kv Hin. now left.
  - destruct (compare_one baseline current comparisons n) as [cs1|] eqn:H1;
      [|discriminate].
    simpl. intros Hrest kv Hin.
    destruct (IH _ _ Hrest kv Hin) as [Hin1|Hbuilt]; [|now right].
    destruct n as [| | |name| |]; try discriminate.
    destruct (compare_one_inv _ _ _ _ _ H1) as [[_ ->]|(_ & d & Hd & ->)];
      [now left|].
    destruct (In_setitem _ _ _ _ _ Hin1) as [->|Hold]; [now right | now left].
Qed.

(** Over the keys of a dict, the loop appends, in their order, an entry
    for each key both documents have a ratio for. *)
Lemma compare_each_keys baseline current names : forall comparisons cs,
  compare_each baseline current (map VStr names) comparisons = Ok cs ->
  NoDup names ->
  (forall n, In n names -> lookup n comparisons = None) ->
  exists fresh,
    cs = comparisons ++ fresh
    /\ keys fresh = filter (both_present baseline current) names
    /\ Forall (built_from baseline current) fresh.
Proof.
  induction names as [|name rest IH]; intros comparisons cs; simpl.
  - intros [= <-] _ _. exists []. now rewrite app_nil_r.
  - fold (compare_one baseline current comparisons (VStr name)).
    destruct (compare_one baseline current comparisons (VStr name))
      as [cs1|] eqn:H1; [|discriminate].
    simpl. intros Hrest Hnodup Hfresh.
    apply NoDup_cons_iff in Hnodup as [Hnotin Hnodup].
    destruct (compare_one_inv _ _ _ _ _ H1) as [[Habs ->]|(Hpres & d & Hd & ->)].
    + rewrite Habs. apply (IH _ _ Hrest Hnodup). intros n Hn. apply Hfresh. now right.
    + rewrite Hpres.
      rewrite setitem_fresh in Hrest by (apply Hfresh; now left).
      destruct (IH _ _ Hrest Hnodup) as (fresh & -> & Hkeys & Hall).
      { intros n Hn. apply lookup_app_fresh.
        - intros ->. contradiction.
        - apply Hfresh. now right. }
      exists ((name, d) :: fresh). rewrite <- app_assoc. simpl.
      repeat split; [now rewrite Hkeys | now constructor].
Qed.

(** On a valid document extraction answers a number or [None]. *)
Lemma valid_document_extracts data metric :
  valid_document data = true ->
  exists v, get_metric_ratio data metric = Ok v /\ ratio_or_null v = true.
Proof.
  unfold valid_document. intros [Hs Hm]%andb_prop.
  assert (Hopt : forall key d, optional_ratio key d = true ->
            exists v, method_get (VDict d) key VNone = Ok v
                      /\ ratio_or_null v = true).
  { intros key d. unfold optional_ratio. simpl.
    destruct (lookup key d); eauto. }
  destruct (reads_metrics data metric) eqn:Hreads.
  - rewrite get_metric_ratio_metrics_step by assumption.
    destruct (lookup "metrics" data) as [[| | | | |metrics]|];
      try discriminate; simpl; [|eauto].
    destruct (lookup metric metrics) as [entry|] eqn:Hentry; simpl; [|eauto].
    apply lookup_In in Hentry.
    rewrite forallb_forall in Hm. specialize (Hm _ Hentry). simpl in Hm.
    destruct entry; simpl in Hm; try discriminate; eauto.
  - unfold reads_metrics in Hreads.
    destruct (lookup "summary" data) as [summary|] eqn:Hsum; [|discriminate].
    destruct (summary_key metric) as [key|] eqn:Hkey; [|discriminate].
    rewrite (get_metric_ratio_summary_step _ _ _ _ Hsum Hkey).
    destruct summary as [| | | | |s]; try discriminate.
    apply andb_prop in Hs as [Hd Hsafe].
    unfold summary_key in Hkey.
    destruct (String.eqb metric "EffectDiscipline");
      [injection Hkey as <-; now apply Hopt|].
    destruct (String.eqb metric "Safety"); [|discriminate].
    injection Hkey as <-. now apply Hopt.
Qed.

Lemma compare_one_valid baseline current comparisons name :
  valid_document baseline = true ->
  valid_document current = true ->
  exists cs, compare_one baseline current comparisons (VStr name) = Ok cs.
Proof.
  intros Hb Hc. simpl.
  destruct (valid_document_extracts baseline name Hb) as (vb & -> & Hvb).
  destruct (valid_document_extracts current name Hc) as (vc & -> & Hvc).
  simpl.
  destruct vb, vc; try discriminate; simpl; eauto;
    erewrite metric_comparison_numbers by reflexivity; simpl; eauto.
Qed.

Lemma compare_each_cons baseline current n rest comparisons :
  compare_each baseline current (n :: rest) comparisons
  = (cs <- compare_one baseline current comparisons n ;;
     compare_each baseline current rest cs).
Proof. reflexivity. Qed.

Lemma compare_each_valid baseline current names :
  valid_document baseline = true ->
  valid_document current = true ->
  forall comparisons,
  exists cs, compare_each baseline current (map VStr names) comparisons = Ok cs.
Proof.
  intros Hb Hc. induction names as [|name rest IH]; intros comparisons.
  - simpl. eauto.
  - cbn [map]. rewrite compare_each_cons.
    destruct (compare_one_valid baseline current comparisons name Hb Hc)
      as [cs1 ->].
    simpl. apply IH.
Qed.

(** The comparison sets [compare_results] returns hold nothing but
    entries built from the two documents. *)
Lemma compare_results_entries baseline current metric cs :
  compare_results baseline current metric = Ok cs ->
  Forall (built_from baseline current) cs.
Proof.
  unfold compare_results. intros H. apply Forall_forall. intros kv Hin.
  destruct (truthy metric) as [name|].
  - fold (compare_one baseline current [] (VStr name)) in H.
    destruct (compare_one_inv _ _ _ _ _ H) as [[_ ->]|(_ & d & Hd & ->)].
    + destruct Hin.
    + destruct Hin as [<-|[]]. exact Hd.
  - destruct (lookup "metrics" baseline) as [bm|];
      [|injection H as <-; destruct Hin].
    destruct (lookup "metrics" current) as [cm|];
      [|injection H as <-; destruct Hin].
    destruct (iterate bm) as [names|]; [|discriminate]. simpl in H.
    destruct (compare_each_entries _ _ _ _ _ H _ Hin) as [[]|Hbuilt].
    exact Hbuilt.
Qed.

Lemma compare_results_raises baseline current metric e :
  compare_results baseline current metric = Raise e ->
  e = AttributeError \/ e = TypeError.
Proof.
  unfold compare_results.
  destruct (truthy metric) as [name|].
  - fold (compare_one baseline current [] (VStr name)). apply compare_one_raises.
  - destruct (lookup "metrics" baseline) as [bm|]; [|discriminate].
    destruct (lookup "metrics" current) as [cm|]; [|discriminate].
    destruct (iterate bm) as [names|e1] eqn:Hit; simpl.
    + apply compare_each_raises.
    + intros [= <-]. right. destruct bm; simpl in Hit; congruence.
Qed.

(** The fields of an entry built from two documents. *)
Lemma built_fields base cur kv :
  built_from base cur kv ->
  (snd kv).(change) = ((snd kv).(current) - (snd kv).(baseline))%float
  /\ (is_zero_ratio (snd kv).(baseline) = false ->
      (snd kv).(change_pct)
      = ((snd kv).(change) / (snd kv).(baseline) * 100)%float)
  /\ (is_zero_ratio (snd kv).(baseline) = true ->
      (snd kv).(change_pct) = 0%float).
Proof.
  intros (vb & vc & _ & _ & Hd).
  apply metric_comparison_inv in Hd as (x & y & _ & _ & ->).
  unfold is_zero_ratio. simpl.
  destruct (x =? 0)%float; repeat split; congruence.
Qed.

(** C2: whatever the mode, [compare_results] never fails with a division
    by zero (the only exceptions are the [AttributeError] and [TypeError]
    of ill-typed documents), and in every entry of the set it returns
    [change] is [current - baseline], [change_pct] is
    [change / baseline * 100] when the baseline is not zero, and is 0
    when the baseline is zero, whatever the current value. *)
Theorem comparison_fields (base cur : dict value) (metric : option string) :
  (forall e, compare_results base cur metric = Raise e ->
             e = AttributeError \/ e = TypeError)
  /\ (forall cs name d,
        compare_results base cur metric = Ok cs ->
        In (name, d) cs ->
        d.(change) = (d.(current) - d.(baseline))%float
        /\ (is_zero_ratio d.(baseline) = false ->
            d.(change_pct) = (d.(change) / d.(baseline) * 100)%float)
        /\ (is_zero_ratio d.(baseline) = true ->
            d.(change_pct) = 0%float)).
Proof.
  split; [apply compare_results_raises|].
  intros cs name d Hcs Hin.
  apply compare_results_entries in Hcs. rewrite Forall_forall in Hcs.
  exact (built_fields _ _ _ (Hcs _ Hin)).
Qed.

Lemma comparison_fields_witness :
  compare_results Sample.mixed_baseline Sample.mixed_current None
  = Ok Sample.mixed_result
  /\ (1 = 5 - 4 /\ 25 = 1 / 4 * 100)%float
  /\ (-3 = -3 - 0)%float.
Proof.
  assert (Hrun : compare_results Sample.mixed_baseline Sample.mixed_current None
                 = Ok Sample.mixed_result) by reflexivity.
  destruct (comparison_fields Sample.mixed_baseline Sample.mixed_current None)
    as [_ Hfields].
  destruct (Hfields _ "D" _ Hrun (or_intror (or_intror (or_introl eq_refl))))
    as (HchangeD & HpctD & _).
  destruct (Hfields _ "A" _ Hrun (or_introl eq_refl)) as (HchangeA & _ & _).
  split; [exact Hrun|]. split; [|exact HchangeA].
  split; [exact HchangeD | exact (HpctD eq_refl)].
Defined.

(** C4: without a metric name, the set is empty as soon as one document
    has no [metrics] (whatever its summary could answer); when both have
    one, a returned set holds, in the order of the baseline's metric
    names, exactly the names both documents yield a value for, each with
    the comparison of those two values; and on valid documents a set is
    returned. *)
Theorem all_metrics_mode (base cur : dict value) :
  (lookup "metrics" base = None \/ lookup "metrics" cur = None ->
   compare_results base cur None = Ok [])
  /\ (forall bm cm,
        lookup "metrics" base = Some (VDict bm) ->
        lookup "metrics" cur = Some cm ->
        NoDup (keys bm) ->
        (forall cs,
           compare_results base cur None = Ok cs ->
           keys cs = filter (both_present base cur) (keys bm)
           /\ Forall (built_from base cur) cs)
        /\ (valid_document base = true ->
            valid_document cur = true ->
            exists cs, compare_results base cur None = Ok cs)).
Proof.
  split.
  - unfold compare_results. simpl. intros [-> | ->]; [reflexivity|].
    now destruct (lookup "metrics" base).
  - intros bm cm Hbm Hcm Hnodup. unfold compare_results. simpl.
    rewrite Hbm, Hcm. simpl.
    replace (map (fun kv => VStr (fst kv)) bm) with (map VStr (keys bm))
      by (unfold keys; now rewrite map_map).
    split.
    + intros cs Hcs.
      destruct (compare_each_keys base cur (keys bm) [] cs Hcs Hnodup)
        as (fresh & -> & Hk & Hall); [reflexivity|].
      now split.
    + intros Hb Hc. now apply compare_each_valid.
Qed.

Lemma all_metrics_mode_witness :
  (get_metric_ratio (Sample.discipline 1.5 2) "EffectDiscipline" = Ok (VNum 1.5)
   /\ get_metric_ratio (Sample.discipline 1.6 2) "EffectDiscipline" = Ok (VNum 1.6)
   /\ compare_results (Sample.discipline 1.5 2) (Sample.discipline 1.6 2) None = Ok [])
  /\ (keys Sample.mixed_result = ["A"; "B"; "D"]
      /\ Forall (built_from Sample.mixed_baseline Sample.mixed_current)
           Sample.mixed_result)
  /\ exists cs, compare_results Sample.mixed_baseline Sample.mixed_current None = Ok cs.
Proof.
  destruct (all_metrics_mode (Sample.discipline 1.5 2) (Sample.discipline 1.6 2))
    as [Hempty _].
  destruct (all_metrics_mode Sample.mixed_baseline Sample.mixed_current)
    as [_ Hboth].
  assert (Hnodup : NoDup ["A"; "B"; "C"; "D"]).
  { repeat constructor; simpl; intuition discriminate. }
  destruct (Hboth _ _ eq_refl eq_refl Hnodup) as [Hkeys Htotal].
  split; [|split].
  - split; [reflexivity|]. split; [reflexivity|]. apply Hempty. now left.
  - exact (Hkeys Sample.mixed_result eq_refl).
  - exact (Htotal eq_refl eq_refl).
Defined.

Lemma truthy_name name : name <> "" -> truthy (Some name) = Some name.
Proof. destruct name; [contradiction | reflexivity]. Qed.

(** The single-metric branch on two numbers. *)
Lemma single_metric_numbers base cur metric vb vc x y :
  metric <> "" ->
  get_metric_ratio base metric = Ok vb ->
  get_metric_ratio cur metric = Ok vc ->
  number_of vb = Some x ->
  number_of vc = Some y ->
  compare_results base cur (Some metric)
  = Ok [(metric,
         {| baseline := x;
            current := y;
            change := y - x;
            change_pct := if (x =? 0)%float then 0 else ((y - x) / x * 100);
            improved := (0 <? y - x) |}%float)].
Proof.
  intros Hname Hb Hc Hx Hy. unfold compare_results.
  rewrite (truthy_name _ Hname), Hb, Hc. simpl.
  rewrite (number_is_not_None _ _ Hx), (number_is_not_None _ _ Hy). simpl.
  now rewrite (metric_comparison_numbers _ _ _ _ Hx Hy).
Qed.




(** An entry of a document compared with itself has one ratio on both
    sides. *)
Lemma self_entry data kv :
  built_from data data kv ->
  exists x,
    snd kv = {| baseline := x;
                current := x;
                change := x - x;
                change_pct := if (x =? 0)%float then 0 else ((x - x) / x * 100);
                improved := (0 <? x - x) |}%float.
Proof.
  intros (vb & vc & Hb & Hc & Hd). rewrite Hb in Hc. injection Hc as <-.
  apply metric_comparison_inv in Hd as (x & y & Hx & Hy & Hd).
  rewrite Hx in Hy. injection Hy as <-. eauto.
Qed.

(** C8, as the code has it: comparing a document against itself gives,
    for every ratio that is a finite number, [change == 0],
    [change_pct == 0] and [improved == False]; in particular for a metric
    named on the command line whose extraction yields a finite number,
    the one entry of the result is such. *)
Theorem self_comparison (data : dict value) (metric : option string) :
  (forall cs name d,
     compare_results data data metric = Ok cs ->
     In (name, d) cs ->
     is_finite d.(baseline) = true ->
     is_zero_ratio d.(change) = true
     /\ is_zero_ratio d.(change_pct) = true
     /\ d.(improved) = false)
  /\ (forall name v x,
        metric = Some name ->
        name <> "" ->
        get_metric_ratio data name = Ok v ->
        number_of v = Some x ->
        is_finite x = true ->
        exists d,
          compare_results data data metric = Ok [(name, d)]
          /\ is_zero_ratio d.(change) = true
          /\ is_zero_ratio d.(change_pct) = true
          /\ d.(improved) = false).
Proof.
  assert (Hentries : forall cs name d,
             compare_results data data metric = Ok cs ->
             In (name, d) cs ->
             is_finite d.(baseline) = true ->
             is_zero_ratio d.(change) = true
             /\ is_zero_ratio d.(change_pct) = true
             /\ d.(improved) = false).
  { intros cs name d Hcs Hin Hfin.
    apply compare_results_entries in Hcs. rewrite Forall_forall in Hcs.
    destruct (self_entry _ _ (Hcs _ Hin)) as [x Hd]. simpl in Hd. subst d.
    simpl in *. unfold is_zero_ratio.
    rewrite (FloatFacts.sub_diag_finite x Hfin).
    repeat split.
    destruct (x =? 0)%float eqn:Hz; [reflexivity|].
    now apply FloatFacts.zero_div_mul_hundred. }
  split; [exact Hentries|].
  intros name v x -> Hname Hv Hx Hfin.
  pose proof (single_metric_numbers _ _ _ _ _ _ _ Hname Hv Hv Hx Hx) as Hrun.
  eexists. split; [exact Hrun|].
  apply (Hentries _ name _ Hrun); [now left | exact Hfin].
Qed.

Lemma self_comparison_witness :
  exists d,
    compare_results (Sample.throughput 1.8) (Sample.throughput 1.8)
      (Some "Throughput") = Ok [("Throughput", d)]
    /\ is_zero_ratio d.(change) = true
    /\ is_zero_ratio d.(change_pct) = true
    /\ d.(improved) = false.
Proof.
  assert (Hname : "Throughput" <> "") by discriminate.
  exact (proj2 (self_comparison (Sample.throughput 1.8) (Some "Throughput"))
           "Throughput" (VNum 1.8) 1.8%float eq_refl Hname eq_refl eq_refl eq_refl).
Defined.

(** C8 fails when the ratio is not finite: [{"metrics": {"A": 1e999}}]
    yields infinity for A, and compared with itself gives a [change] and
    a [change_pct] that are NaN, which is not equal to 0. *)
Lemma self_comparison_infinite_ratio :
  get_metric_ratio Sample.infinite_ratio "A" = Ok (VNum infinity)
  /\ compare_results Sample.infinite_ratio Sample.infinite_ratio (Some "A")
     = Ok [("A", {| baseline := infinity; current := infinity; change := nan;
                    change_pct := nan; improved := false |})]
  /\ is_zero_ratio nan = false.
Proof. repeat split; reflexivity. Qed.

(** C9: for a threshold that is not negative, no metric whose baseline
    is zero is reported by [check_regression], however far its current
    ratio fell: its [change_pct] is 0. The report of a set
    [compare_results] returned is the report of that set without its
    zero-baseline entries, and one such entry alone gives no report. *)
Theorem zero_baseline_never_reported (base cur : dict value) (metric : option string)
    (cs : dict comparison) (threshold : float) :
  compare_results base cur metric = Ok cs ->
  (0 <=? threshold)%float = true ->
  check_regression cs threshold
  = check_regression
      (filter (fun kv => negb (is_zero_ratio (snd kv).(baseline))) cs) threshold
  /\ (forall name d,
        In (name, d) cs ->
        is_zero_ratio d.(baseline) = true ->
        is_regression threshold d = false
        /\ check_regression [(name, d)] threshold = []).
Proof.
  intros Hcs Hthreshold.
  assert (Hzero : forall kv,
             In kv cs -> is_zero_ratio (snd kv).(baseline) = true ->
             is_regression threshold (snd kv) = false).
  { intros [name d] Hin Hbase.
    pose proof (compare_results_entries _ _ _ _ Hcs) as Hbuilt.
    rewrite Forall_forall in Hbuilt.
    destruct (built_fields _ _ _ (Hbuilt _ Hin)) as (_ & _ & Hpct).
    simpl in *. unfold is_regression, gt. rewrite (Hpct Hbase).
    change (abs 0) with 0%float.
    rewrite (FloatFacts.nonneg_threshold_not_below_zero _ Hthreshold).
    apply andb_false_r. }
  split.
  - unfold check_regression. rewrite !check_regression_loop. simpl. f_equal.
    clear Hcs. induction cs as [|kv rest IH]; [reflexivity|]. simpl.
    destruct (is_zero_ratio (snd kv).(baseline)) eqn:Hbase; simpl.
    + rewrite (Hzero kv (or_introl eq_refl) Hbase).
      apply IH. intros kv' Hin. apply Hzero. now right.
    + destruct (is_regression threshold (snd kv)); simpl; [f_equal|];
        apply IH; intros kv' Hin; apply Hzero; now right.
  - intros name d Hin Hbase.
    pose proof (Hzero (name, d) Hin Hbase) as Hreg. simpl in Hreg.
    split; [exact Hreg|].
    unfold check_regression. rewrite check_regression_loop. simpl.
    now rewrite Hreg.
Qed.

Lemma zero_baseline_never_reported_witness :
  check_regression Sample.mixed_result 0.05
  = check_regression
      (filter (fun kv => negb (is_zero_ratio (snd kv).(baseline)))
         Sample.mixed_result) 0.05
  /\ check_regression
       [("A", {| baseline := 0; current := -3; change := -3;
                 change_pct := 0; improved := false |})] 0.05 = [].
Proof.
  destruct (zero_baseline_never_reported Sample.mixed_baseline
              Sample.mixed_current None Sample.mixed_result 0.05%float
              eq_refl eq_refl) as [Hsame Hone].
  split; [exact Hsame|].
  exact (proj2 (Hone "A" _ (or_introl eq_refl) eq_refl)).
Defined.

(* ================================================================= *)
(** * Command-line driver *)

Lemma seq_Next (A B : Type) (events : list Proc.event) (a : A) (k : A -> Proc.t B) :
  Proc.seq (events, Proc.Next a) k = (events ++ fst (k a), snd (k a)).
Proof. reflexivity. Qed.

Lemma seq_Stop (A B : Type) (events : list Proc.event) s (k : A -> Proc.t B) :
  Proc.seq (events, Proc.Stop s) k = (events, Proc.Stop s).
Proof. reflexivity. Qed.

(** [print_each] prints every line and goes on. *)
Lemma print_each_lines prefix lines :
  Proc.print_each prefix lines
  = (map (fun line => Proc.Printed (String.append prefix line)) lines, Proc.Next tt).
Proof.
  induction lines as [|line rest IH]; simpl; [reflexivity|].
  rewrite IH. reflexivity.
Qed.

Lemma print_each_plain lines :
  Proc.print_each "" lines = (map Proc.Printed lines, Proc.Next tt).
Proof. rewrite print_each_lines. reflexivity. Qed.

(** A run whose two documents load: what is left of [main]. *)
Lemma main_loaded w args base cur :
  load w args.(Args.baseline) = Ok base ->
  load w args.(Args.current) = Ok cur ->
  main w args
  = (comparisons <~ Proc.call (compare_results base cur args.(Args.metric)) ;;
     match comparisons with
     | [] => Proc.print "No comparable metrics found" ;;; Proc.sys_exit 1
     | _ :: _ =>
         Proc.print_each "" (print_comparison comparisons) ;;;
         match truthy args.(Args.output) with
         | Some path =>
             dump_json w path comparisons ;;;
             Proc.print (saved_line path)
         | None => Proc.pure tt
         end ;;;
         match args.(Args.fail_on_regression) with
         | Some threshold => report_regressions comparisons threshold
         | None => Proc.pure tt
         end ;;;
         Proc.sys_exit 0
     end).
Proof.
  intros Hb Hc. unfold main, load_or_exit, load_json. rewrite Hb, Hc.
  unfold Proc.pure. rewrite !seq_Next. simpl.
  now destruct (Proc.seq _ _).
Qed.

(** The regression stage, when something regressed. *)
Lemma report_regressions_found comparisons threshold :
  check_regression comparisons threshold <> [] ->
  report_regressions comparisons threshold
  = (Proc.Printed (regressions_header threshold)
       :: map (fun r => Proc.Printed (String.append "  - " r))
            (check_regression comparisons threshold),
     Proc.Stop (Proc.Exit 1)).
Proof.
  unfold report_regressions.
  destruct (check_regression comparisons threshold) as [|r rest] eqn:Hr;
    [contradiction|].
  intros _. rewrite print_each_lines. unfold Proc.print, Proc.sys_exit.
  rewrite !seq_Next. cbn [fst snd app]. now rewrite app_nil_r.
Qed.


(** The regression stage followed by [sys.exit(0)]. *)
Lemma regression_stage_run comparisons fail_on_regression :
  Proc.run
    (match fail_on_regression with
     | Some threshold => report_regressions comparisons threshold
     | None => Proc.pure tt
     end ;;; Proc.sys_exit 0)
  = (regression_stage comparisons fail_on_regression,
     final_status comparisons fail_on_regression).
Proof.
  unfold regression_stage, final_status.
  destruct fail_on_regression as [threshold|]; [|reflexivity].
  destruct (check_regression comparisons threshold) as [|r rest] eqn:Hr.
  - unfold report_regressions. rewrite Hr. unfold Proc.print, Proc.sys_exit.
    rewrite seq_Next. reflexivity.
  - assert (Hfound : check_regression comparisons threshold <> [])
      by (rewrite Hr; discriminate).
    rewrite (report_regressions_found _ _ Hfound). now rewrite seq_Stop.
Qed.

(** A whole run over a comparison set that is not empty. *)
Lemma main_run w args base cur cs :
  load w args.(Args.baseline) = Ok base ->
  load w args.(Args.current) = Ok cur ->
  compare_results base cur args.(Args.metric) = Ok cs ->
  cs <> [] ->
  Proc.run (main w args)
  = match truthy args.(Args.output) with
    | Some path =>
        match w.(write_error) path with
        | Some e => (map Proc.Printed (print_comparison cs), Proc.Uncaught e)
        | None =>
            (map Proc.Printed (print_comparison cs)
               ++ [Proc.Written path cs; Proc.Printed (saved_line path)]
               ++ regression_stage cs args.(Args.fail_on_regression),
             final_status cs args.(Args.fail_on_regression))
        end
    | None =>
        (map Proc.Printed (print_comparison cs)
           ++ regression_stage cs args.(Args.fail_on_regression),
         final_status cs args.(Args.fail_on_regression))
    end.
Proof.
  intros Hb Hc Hcs Hne. rewrite (main_loaded _ _ _ _ Hb Hc), Hcs.
  unfold Proc.call, Proc.pure. rewrite seq_Next.
  destruct cs as [|kv rest]; [contradiction|].
  set (cs := kv :: rest) in *. cbn [app].
  change (match cs with [] => _ | _ :: _ => ?k end) with k.
  pose proof (regression_stage_run cs args.(Args.fail_on_regression)) as Hstage.
  unfold Proc.run in *.
  set (stage := Proc.seq _ (fun _ => Proc.sys_exit 0)) in *.
  injection Hstage as Hevents Hend.
  rewrite print_each_plain, seq_Next. cbn [fst snd].
  destruct (truthy args.(Args.output)) as [path|].
  - unfold dump_json. destruct (w.(write_error) path) as [e|].
    + unfold Proc.throw. rewrite !seq_Stop. cbn [fst snd].
      now rewrite app_nil_r.
    + unfold Proc.print. rewrite !seq_Next. cbn [fst snd app].
      rewrite seq_Next. cbn [fst snd app].
      now rewrite Hevents, Hend.
  - unfold Proc.pure. rewrite seq_Next. cbn [fst snd app].
    now rewrite Hevents, Hend.
Qed.

(** C7, as the code has it: a missing file, malformed JSON (in the
    baseline or in the current document), an empty comparison set and a
    detected regression each end the run by a printed message followed by
    [sys.exit(1)]; a failure to write the [--output] file is not handled:
    the exception leaves [main], after the table and with nothing printed
    about it. *)
Theorem handled_errors (w : world) (args : Args.t) :
  (load w args.(Args.baseline) = Raise FileNotFoundError ->
   Proc.run (main w args)
   = ([Proc.Printed
         (String.append "Error: Baseline file not found: " args.(Args.baseline))],
      Proc.Exit 1))
  /\ (forall msg,
        load w args.(Args.baseline) = Raise (JSONDecodeError msg) ->
        Proc.run (main w args)
        = ([Proc.Printed
              (String.append "Error: Invalid JSON in baseline file: " msg)],
           Proc.Exit 1))
  /\ (forall base,
        load w args.(Args.baseline) = Ok base ->
        load w args.(Args.current) = Raise FileNotFoundError ->
        Proc.run (main w args)
        = ([Proc.Printed
              (String.append "Error: Current file not found: " args.(Args.current))],
           Proc.Exit 1))
  /\ (forall base msg,
        load w args.(Args.baseline) = Ok base ->
        load w args.(Args.current) = Raise (JSONDecodeError msg) ->
        Proc.run (main w args)
        = ([Proc.Printed
              (String.append "Error: Invalid JSON in current file: " msg)],
           Proc.Exit 1))
  /\ (forall base cur,
        load w args.(Args.baseline) = Ok base ->
        load w args.(Args.current) = Ok cur ->
        compare_results base cur args.(Args.metric) = Ok [] ->
        Proc.run (main w args)
        = ([Proc.Printed "No comparable metrics found"], Proc.Exit 1))
  /\ (forall base cur cs threshold,
        load w args.(Args.baseline) = Ok base ->
        load w args.(Args.current) = Ok cur ->
        compare_results base cur args.(Args.metric) = Ok cs ->
        cs <> [] ->
        (forall path, truthy args.(Args.output) = Some path ->
                      w.(write_error) path = None) ->
        args.(Args.fail_on_regression) = Some threshold ->
        check_regression cs threshold <> [] ->
        snd (Proc.run (main w args)) = Proc.Exit 1
        /\ exists before,
            fst (Proc.run (main w args))
            = before
                ++ Proc.Printed (regressions_header threshold)
                :: map (fun r => Proc.Printed (String.append "  - " r))
                     (check_regression cs threshold))
  /\ (forall base cur cs path e,
        load w args.(Args.baseline) = Ok base ->
        load w args.(Args.current) = Ok cur ->
        compare_results base cur args.(Args.metric) = Ok cs ->
        cs <> [] ->
        truthy args.(Args.output) = Some path ->
        w.(write_error) path = Some e ->
        Proc.run (main w args)
        = (map Proc.Printed (print_comparison cs), Proc.Uncaught e)).
Proof.
  repeat match goal with |- _ /\ _ => split end.
  - intros H. unfold main, load_or_exit, load_json. now rewrite H.
  - intros msg H. unfold main, load_or_exit, load_json. now rewrite H.
  - intros base Hb H. unfold main, load_or_exit, load_json. now rewrite Hb, H.
  - intros base msg Hb H. unfold main, load_or_exit, load_json.
    now rewrite Hb, H.
  - intros base cur Hb Hc Hcs. now rewrite (main_loaded _ _ _ _ Hb Hc), Hcs.
  - intros base cur cs threshold Hb Hc Hcs Hne Hwrite Hfail Hfound.
    rewrite (main_run _ _ _ _ _ Hb Hc Hcs Hne).
    assert (Hstage : regression_stage cs args.(Args.fail_on_regression)
                     = Proc.Printed (regressions_header threshold)
                         :: map (fun r => Proc.Printed (String.append "  - " r))
                              (check_regression cs threshold)).
    { unfold regression_stage. rewrite Hfail.
      now rewrite (report_regressions_found _ _ Hfound). }
    assert (Hstatus : final_status cs args.(Args.fail_on_regression) = Proc.Exit 1).
    { unfold final_status. rewrite Hfail.
      now destruct (check_regression cs threshold). }
    destruct (truthy args.(Args.output)) as [path|].
    + rewrite (Hwrite path eq_refl). cbn [fst snd]. split; [exact Hstatus|].
      eexists. rewrite Hstage, app_assoc. reflexivity.
    + cbn [fst snd]. split; [exact Hstatus|].
      eexists. now rewrite Hstage.
  - intros base cur cs path e Hb Hc Hcs Hne Hout Hwrite.
    now rewrite (main_run _ _ _ _ _ Hb Hc Hcs Hne), Hout, Hwrite.
Qed.

Lemma handled_errors_witness :
  Proc.run (main Sample.files (Sample.plain "gone.json" "cur.json" None))
  = ([Proc.Printed "Error: Baseline file not found: gone.json"], Proc.Exit 1)
  /\ Proc.run (main Sample.files (Sample.plain "base.json" "broken.json" None))
     = ([Proc.Printed
           (String.append "Error: Invalid JSON in current file: "
              "Expecting value: line 1 column 1 (char 0)")],
        Proc.Exit 1)
  /\ Proc.run (main Sample.files (Sample.plain "base.json" "cur.json" (Some "Latency")))
     = ([Proc.Printed "No comparable metrics found"], Proc.Exit 1)
  /\ snd (Proc.run (main Sample.files (Sample.command (Some "out.json"))))
     = Proc.Exit 1.
Proof.
  destruct (handled_errors Sample.files (Sample.plain "gone.json" "cur.json" None))
    as (Hmissing & _).
  destruct (handled_errors Sample.files (Sample.plain "base.json" "broken.json" None))
    as (_ & _ & _ & Hbroken & _).
  destruct (handled_errors Sample.files
              (Sample.plain "base.json" "cur.json" (Some "Latency")))
    as (_ & _ & _ & _ & Hempty & _).
  destruct (handled_errors Sample.files (Sample.command (Some "out.json")))
    as (_ & _ & _ & _ & _ & Hregressed & _).
  assert (Hne : [("Throughput", Sample.throughput_entry)] <> []) by discriminate.
  assert (Hwrite : forall path,
             truthy (Some "out.json") = Some path ->
             Sample.files.(write_error) path = None)
    by (intros path [= <-]; reflexivity).
  assert (Hfound : check_regression [("Throughput", Sample.throughput_entry)] 0.05
                   <> []) by (vm_compute; discriminate).
  split; [exact (Hmissing eq_refl)|].
  split; [exact (Hbroken _ _ eq_refl eq_refl)|].
  split; [exact (Hempty _ _ eq_refl eq_refl eq_refl)|].
  exact (proj1 (Hregressed _ _ _ _ eq_refl eq_refl eq_refl Hne Hwrite eq_refl Hfound)).
Defined.

(** C7 fails for a write error: with an [--output] path that cannot be
    written (no permission, or a directory that does not exist) the run
    prints the table and ends in the exception, uncaught; [main] prints
    no message about it and calls no [sys.exit(1)]. *)
Lemma write_error_not_handled :
  Proc.run (main Sample.files (Sample.command (Some "locked/out.json")))
  = (map Proc.Printed (print_comparison [("Throughput", Sample.throughput_entry)]),
     Proc.Uncaught (OSError "[Errno 13] Permission denied"))
  /\ Proc.run (main Sample.files (Sample.command (Some "missing/out.json")))
     = (map Proc.Printed (print_comparison [("Throughput", Sample.throughput_entry)]),
        Proc.Uncaught FileNotFoundError).
Proof. split; vm_compute; reflexivity. Qed.

(** C10, as the code has it: when [--output] names a path that is not
    empty and the comparison set is not empty, a run whose write succeeds
    emits the table, then the write of the whole set and its
    confirmation line, and only then what the regression check prints;
    and a run that ends in exit code 1 is one where a regression was
    found, and has written the set and printed the confirmation before
    the regression report. *)
Theorem output_written_before_regressions (w : world) (args : Args.t)
    (base cur : dict value) (cs : dict comparison) (path : string) :
  load w args.(Args.baseline) = Ok base ->
  load w args.(Args.current) = Ok cur ->
  compare_results base cur args.(Args.metric) = Ok cs ->
  cs <> [] ->
  args.(Args.output) = Some path ->
  path <> "" ->
  (w.(write_error) path = None ->
   Proc.run (main w args)
   = (map Proc.Printed (print_comparison cs)
        ++ [Proc.Written path cs; Proc.Printed (saved_line path)]
        ++ regression_stage cs args.(Args.fail_on_regression),
      final_status cs args.(Args.fail_on_regression)))
  /\ (snd (Proc.run (main w args)) = Proc.Exit 1 ->
      exists threshold,
        args.(Args.fail_on_regression) = Some threshold
        /\ check_regression cs threshold <> []
        /\ fst (Proc.run (main w args))
           = map Proc.Printed (print_comparison cs)
               ++ [Proc.Written path cs; Proc.Printed (saved_line path)]
               ++ Proc.Printed (regressions_header threshold)
               :: map (fun r => Proc.Printed (String.append "  - " r))
                    (check_regression cs threshold)).
Proof.
  intros Hb Hc Hcs Hne Hout Hpath.
  rewrite (main_run _ _ _ _ _ Hb Hc Hcs Hne), Hout.
  rewrite (truthy_name _ Hpath). split.
  - now intros ->.
  - destruct (w.(write_error) path) as [e|]; [discriminate|]. cbn [fst snd].
    unfold final_status, regression_stage.
    destruct args.(Args.fail_on_regression) as [threshold|]; [|discriminate].
    destruct (check_regression cs threshold) as [|r rest] eqn:Hr; [discriminate|].
    intros _. exists threshold.
    assert (Hfound : check_regression cs threshold <> [])
      by (rewrite Hr; discriminate).
    rewrite (report_regressions_found _ _ Hfound), Hr.
    repeat split. discriminate.
Qed.

Lemma output_written_before_regressions_witness :
  Proc.run (main Sample.files (Sample.command (Some "out.json")))
  = (map Proc.Printed (print_comparison [("Throughput", Sample.throughput_entry)])
       ++ [Proc.Written "out.json" [("Throughput", Sample.throughput_entry)];
           Proc.Printed (saved_line "out.json");
           Proc.Printed (regressions_header 0.05);
           Proc.Printed "  - Throughput: 2.000 -> 1.800 (-10.0%)"],
     Proc.Exit 1).
Proof.
  assert (Hne : [("Throughput", Sample.throughput_entry)] <> []) by discriminate.
  assert (Hpath : "out.json" <> "") by discriminate.
  exact (proj1 (output_written_before_regressions Sample.files
                  (Sample.command (Some "out.json")) _ _ _ "out.json"
                  eq_refl eq_refl eq_refl Hne eq_refl Hpath) eq_refl).
Defined.

(** C10 fails for an empty path: with [--output ""] the run exits with
    code 1 on the regression it found, and has written nothing and
    printed no confirmation; and with a path that cannot be written the
    run stops at the write, before any regression is looked for. *)
Lemma empty_output_path_writes_nothing :
  Proc.run (main Sample.files (Sample.command (Some "")))
  = (map Proc.Printed (print_comparison [("Throughput", Sample.throughput_entry)])
       ++ [Proc.Printed (regressions_header 0.05);
           Proc.Printed "  - Throughput: 2.000 -> 1.800 (-10.0%)"],
     Proc.Exit 1)
  /\ Proc.run (main Sample.files (Sample.command (Some "locked/report.json")))
     = (map Proc.Printed (print_comparison [("Throughput", Sample.throughput_entry)]),
        Proc.Uncaught (OSError "[Errno 13] Permission denied")).
Proof. split; vm_compute; reflexivity. Qed.

(* ================================================================= *)
(** * The scenarios of the specification, run *)

(** Throughput 2.0 against 1.8: one entry; in binary64 the change is
    the float nearest to -0.2 that [1.8 - 2] gives, shown as -0.200, and
    the percentage shows as -10.0%. *)
Example throughput_scenario :
  compare_results (Sample.throughput 2) (Sample.throughput 1.8) None
  = Ok [("Throughput", Sample.throughput_entry)]
  /\ print_comparison [("Throughput", Sample.throughput_entry)]
     = [ String.append Fmt.newline "Benchmark Comparison Results";
         "============================================================";
         "Metric                      Baseline    Current     Change";
         "------------------------------------------------------------";
         "- Throughput                   2.000      1.800 -0.200 (-10.0%)";
         "------------------------------------------------------------" ].
Proof. split; vm_compute; reflexivity. Qed.

(** [--metric EffectDiscipline] on two discipline-style documents, 1.5
    and 1.6: one entry, improved, exit code 0. *)
Example discipline_scenario :
  let w := {| load := fun path =>
                if String.eqb path "old.json" then Ok (Sample.discipline 1.5 2)
                else Ok (Sample.discipline 1.6 2);
              write_error := fun _ => None |} in
  let entry := {| baseline := 1.5; current := 1.6; change := 1.6 - 1.5;
                  change_pct := (1.6 - 1.5) / 1.5 * 100; improved := true |} in
  Proc.run (main w (Sample.plain "old.json" "new.json" (Some "EffectDiscipline")))
  = (map Proc.Printed (print_comparison [("EffectDiscipline", entry)]),
     Proc.Exit 0).
Proof. vm_compute. reflexivity. Qed.

(* ================================================================= *)
(** * Further facts about binary64 order *)

Module FloatOrder.
Local Open Scope float_scope.

Lemma Prim2SF_nan : Prim2SF nan = S754_nan.
Proof. reflexivity. Qed.

(** The only float that differs from itself is NaN. *)
Lemma is_nan_eq x : is_nan x = true -> x = nan.
Proof.
  unfold is_nan. rewrite eqb_spec. intros H.
  apply Prim2SF_inj. rewrite Prim2SF_nan.
  destruct (Prim2SF x) as [s|s| |s m e]; try reflexivity; exfalso.
  - now destruct s.
  - now destruct s.
  - unfold SFeqb, SFcompare in H. rewrite Z.compare_refl in H.
    destruct s; rewrite Pos.compare_cont_refl in H; discriminate.
Qed.

(** Nothing is below, and nothing is above, NaN. *)
Lemma ltb_nan_l x : (nan <? x) = false.
Proof. rewrite ltb_spec, Prim2SF_nan. reflexivity. Qed.

Lemma ltb_nan_r x : (x <? nan) = false.
Proof.
  rewrite ltb_spec, Prim2SF_nan. unfold SFltb, SFcompare.
  now destruct (Prim2SF x).
Qed.

(** A float below zero is not above it. *)
Lemma below_zero_not_above x : (x <? 0) = true -> (0 <? x) = false.
Proof.
  rewrite !ltb_spec. change (Prim2SF 0) with (S754_zero false).
  destruct (Prim2SF x) as [s|s| |s m e]; simpl; try discriminate;
    destruct s; simpl; try discriminate; reflexivity.
Qed.

(** Equal floats are not strictly ordered. *)
Lemma eqb_not_ltb x y : (x =? y) = true -> (x <? y) = false.
Proof.
  rewrite eqb_spec, ltb_spec. unfold SFeqb, SFltb.
  now destruct (SFcompare (Prim2SF x) (Prim2SF y)) as [[]|].
Qed.

(** [x - x] is never below zero: it is [+0], or NaN when [x] is not
    finite. *)
Lemma sub_diag_not_below_zero x : (x - x <? 0) = false.
Proof.
  rewrite ltb_spec, sub_spec. change (Prim2SF 0) with (S754_zero false).
  destruct (Prim2SF x) as [s|s| |s m e]; try (destruct s; reflexivity);
    try reflexivity.
  unfold SF64sub, SFsub. rewrite Z.sub_diag. reflexivity.
Qed.

End FloatOrder.

(* ================================================================= *)
(** * The comparison set as a dictionary *)

Lemma lookup_None_iff (V : Type) (d : dict V) k :
  lookup k d = None <-> ~ In k (keys d).
Proof.
  induction d as [|[k' v'] rest IH]; simpl; [tauto|].
  destruct (String.eqb_spec k k') as [->|Hne].
  - split; [discriminate | intros H; exfalso; apply H; now left].
  - rewrite IH. split; [intros H [E|Hin]; [congruence | tauto] | tauto].
Qed.


(** Assignment keeps the keys, or adds the new one last. *)
Lemma keys_setitem (V : Type) k (v : V) d :
  keys (setitem k v d)
  = match lookup k d with
    | Some _ => keys d
    | None => keys d ++ [k]
    end.
Proof.
  induction d as [|[k' v'] rest IH]; simpl; [reflexivity|].
  destruct (String.eqb_spec k k') as [->|Hne]; simpl; [reflexivity|].
  rewrite IH. now destruct (lookup k rest).
Qed.

Lemma NoDup_keys_setitem (V : Type) k (v : V) d :
  NoDup (keys d) -> NoDup (keys (setitem k v d)).
Proof.
  intros Hnd. rewrite keys_setitem.
  destruct (lookup k d) eqn:Hk; [exact Hnd|].
  apply lookup_None_iff in Hk.
  apply NoDup_app; [exact Hnd | repeat constructor; intros [] |].
  intros x Hx [<-|[]]. contradiction.
Qed.

Lemma compare_each_NoDup base cur names : forall comparisons cs,
  compare_each base cur names comparisons = Ok cs ->
  NoDup (keys comparisons) ->
  NoDup (keys cs).
Proof.
  induction names as [|n rest IH]; intros comparisons cs.
  - simpl. now intros [= <-].
  - rewrite compare_each_cons.
    destruct (compare_one base cur comparisons n) as [cs1|] eqn:H1;
      [|discriminate].
    simpl. intros Hrest Hnd. apply (IH _ _ Hrest).
    destruct n as [| | |name| |]; try discriminate.
    destruct (compare_one_inv _ _ _ _ _ H1) as [[_ ->]|(_ & d & _ & ->)];
      [exact Hnd | now apply NoDup_keys_setitem].
Qed.

(** X1: whatever the documents and the mode, the names of a comparison
    set [compare_results] returns are pairwise distinct; and when a
    metric name is given (one that is not empty) the set is empty or
    holds the one entry of that name. *)
Theorem compare_results_keys_distinct
    (base cur : dict value) (metric : option string) (cs : dict comparison) :
  compare_results base cur metric = Ok cs ->
  NoDup (keys cs)
  /\ (forall name, truthy metric = Some name ->
                   cs = [] \/ exists d, cs = [(name, d)]).
Proof.
  unfold compare_results. intros H. split.
  - destruct (truthy metric) as [name|].
    + fold (compare_one base cur [] (VStr name)) in H.
      destruct (compare_one_inv _ _ _ _ _ H) as [[_ ->]|(_ & d & _ & ->)];
        [constructor | apply NoDup_keys_setitem; constructor].
    + destruct (lookup "metrics" base) as [bm|];
        [|injection H as <-; constructor].
      destruct (lookup "metrics" cur) as [cm|];
        [|injection H as <-; constructor].
      destruct (iterate bm) as [names|]; [|discriminate]. simpl in H.
      apply (compare_each_NoDup _ _ _ _ _ H). constructor.
  - intros name Hname. rewrite Hname in H.
    fold (compare_one base cur [] (VStr name)) in H.
    destruct (compare_one_inv _ _ _ _ _ H) as [[_ ->]|(_ & d & _ & ->)];
      [now left | right; now exists d].
Qed.

Lemma compare_results_keys_distinct_witness :
  NoDup (keys Sample.mixed_result)
  /\ ([("Throughput", Sample.throughput_entry)] = []
      \/ exists d, [("Throughput", Sample.throughput_entry)] = [("Throughput", d)]).
Proof.
  split.
  - exact (proj1 (compare_results_keys_distinct Sample.mixed_baseline
                    Sample.mixed_current None Sample.mixed_result eq_refl)).
  - exact (proj2 (compare_results_keys_distinct (Sample.throughput 2)
                    (Sample.throughput 1.8) (Some "Throughput")
                    [("Throughput", Sample.throughput_entry)] eq_refl)
             "Throughput" eq_refl).
Defined.

(* ================================================================= *)
(** * The two modes of the comparator *)




Lemma built_from_unique base cur name d d' :
  built_from base cur (name, d) -> built_from base cur (name, d') -> d = d'.
Proof.
  intros (vb & vc & Hb & Hc & Hd) (vb' & vc' & Hb' & Hc' & Hd'). simpl in *.
  congruence.
Qed.



(* ================================================================= *)
(** * What the comparator reads of a document *)

Lemma get_metric_ratio_frame d1 d2 metric :
  same_sections d1 d2 ->
  get_metric_ratio d1 metric = get_metric_ratio d2 metric.
Proof. intros [Hs Hm]. unfold get_metric_ratio. now rewrite Hs, Hm. Qed.

Lemma compare_each_frame base base' cur cur' names :
  same_sections base base' ->
  same_sections cur cur' ->
  forall comparisons,
    compare_each base cur names comparisons
    = compare_each base' cur' names comparisons.
Proof.
  intros Hb Hc. induction names as [|n rest IH]; intros comparisons;
    [reflexivity|].
  rewrite !compare_each_cons.
  assert (Hone : compare_one base cur comparisons n
                 = compare_one base' cur' comparisons n).
  { destruct n; try reflexivity. simpl.
    now rewrite (get_metric_ratio_frame _ _ s Hb),
                (get_metric_ratio_frame _ _ s Hc). }
  rewrite Hone. destruct (compare_one base' cur' comparisons n); simpl;
    [apply IH | reflexivity].
Qed.

(** X3: of a document the comparator reads the [summary] and the
    [metrics] and nothing else: two baselines that hold the same two
    sections, and two current documents that do, compare alike, in either
    mode, down to the exception raised. *)
Theorem compare_results_reads_two_sections
    (base base' cur cur' : dict value) (metric : option string) :
  same_sections base base' ->
  same_sections cur cur' ->
  compare_results base cur metric = compare_results base' cur' metric.
Proof.
  intros Hb Hc. unfold compare_results.
  destruct (truthy metric) as [name|].
  - now rewrite (get_metric_ratio_frame _ _ name Hb),
                (get_metric_ratio_frame _ _ name Hc).
  - rewrite <- (proj2 Hb), <- (proj2 Hc).
    destruct (lookup "metrics" base) as [bm|] eqn:Hbm; [|reflexivity].
    destruct (lookup "metrics" cur) as [cm|] eqn:Hcm; [|reflexivity].
    destruct (iterate bm) as [names|]; [|reflexivity]. simpl.
    now apply compare_each_frame.
Qed.

Lemma compare_results_reads_two_sections_witness :
  compare_results (More.annotated 2) (More.annotated 1.8) None
  = Ok [("Throughput", Sample.throughput_entry)].
Proof.
  assert (Hb : same_sections (More.annotated 2)
                 [("metrics", VDict [("Throughput", VNum 2)])])
    by (split; reflexivity).
  assert (Hc : same_sections (More.annotated 1.8)
                 [("metrics", VDict [("Throughput", VNum 1.8)])])
    by (split; reflexivity).
  rewrite (compare_results_reads_two_sections _ _ _ _ None Hb Hc).
  reflexivity.
Defined.

(* ================================================================= *)
(** * What the regression checker never reports *)

(** A report leaves out every entry the test rejects. *)
Lemma check_regression_none threshold cs :
  (forall kv, In kv cs -> is_regression threshold (snd kv) = false) ->
  check_regression cs threshold = [].
Proof.
  intros Hnone. unfold check_regression. rewrite check_regression_loop. simpl.
  induction cs as [|kv rest IH]; [reflexivity|]. simpl.
  rewrite (Hnone kv (or_introl eq_refl)). apply IH.
  intros kv' Hin. apply Hnone. now right.
Qed.

Lemma check_regression_without threshold (drop : comparison -> bool) cs :
  (forall kv, In kv cs -> drop (snd kv) = true ->
              is_regression threshold (snd kv) = false) ->
  check_regression cs threshold
  = check_regression (filter (fun kv => negb (drop (snd kv))) cs) threshold.
Proof.
  intros Hdrop. unfold check_regression. rewrite !check_regression_loop. simpl.
  f_equal. induction cs as [|kv rest IH]; [reflexivity|]. simpl.
  destruct (drop (snd kv)) eqn:Hd; simpl.
  - rewrite (Hdrop kv (or_introl eq_refl) Hd).
    apply IH. intros kv' Hin. apply Hdrop. now right.
  - destruct (is_regression threshold (snd kv)); simpl; [f_equal|];
      apply IH; intros kv' Hin; apply Hdrop; now right.
Qed.

(** X4: a document compared against itself never shows a regression,
    whatever the mode, the threshold (negative and NaN included) and the
    ratios (infinite and NaN included): each change is [+0] or NaN, and
    neither is below zero. *)
Theorem self_comparison_never_regresses
    (data : dict value) (metric : option string) (cs : dict comparison)
    (threshold : float) :
  compare_results data data metric = Ok cs ->
  check_regression cs threshold = [].
Proof.
  intros Hcs. apply check_regression_none. intros kv Hin.
  apply compare_results_entries in Hcs. rewrite Forall_forall in Hcs.
  destruct (self_entry _ _ (Hcs _ Hin)) as [x Hd].
  unfold is_regression, lt. rewrite Hd. simpl.
  now rewrite FloatOrder.sub_diag_not_below_zero.
Qed.

Lemma self_comparison_never_regresses_witness :
  check_regression
    [("A", {| baseline := infinity; current := infinity; change := nan;
              change_pct := nan; improved := false |})] (-1)
  = [].
Proof.
  exact (self_comparison_never_regresses Sample.infinite_ratio (Some "A")
           _ (-1)%float eq_refl).
Defined.

(** X5: a metric the comparator marks as improved is never reported as
    a regression, at any threshold: the report of a set
    [compare_results] returned is the report of its entries that are not
    improved. *)
Theorem improved_never_reported
    (base cur : dict value) (metric : option string) (cs : dict comparison)
    (threshold : float) :
  compare_results base cur metric = Ok cs ->
  (forall name d, In (name, d) cs -> d.(improved) = true ->
                  is_regression threshold d = false)
  /\ check_regression cs threshold
     = check_regression (filter (fun kv => negb (snd kv).(improved)) cs) threshold.
Proof.
  intros Hcs.
  assert (Himp : forall kv, In kv cs -> (snd kv).(improved) = true ->
                            is_regression threshold (snd kv) = false).
  { intros kv Hin Himproved.
    apply compare_results_entries in Hcs. rewrite Forall_forall in Hcs.
    destruct (Hcs _ Hin) as (vb & vc & _ & _ & Hd).
    apply metric_comparison_inv in Hd as (x & y & _ & _ & Hd).
    rewrite Hd in *. simpl in *. unfold is_regression, lt. simpl.
    destruct (y - x <? 0)%float eqn:Hbelow; [|reflexivity].
    apply FloatOrder.below_zero_not_above in Hbelow. congruence. }
  split.
  - intros name d Hin. exact (Himp (name, d) Hin).
  - exact (check_regression_without threshold improved cs Himp).
Qed.

Lemma improved_never_reported_witness :
  is_regression (-1) {| baseline := 4; current := 5; change := 1;
                        change_pct := 25; improved := true |} = false
  /\ check_regression Sample.mixed_result (-1)
     = check_regression
         (filter (fun kv => negb (snd kv).(improved)) Sample.mixed_result) (-1).
Proof.
  destruct (improved_never_reported Sample.mixed_baseline Sample.mixed_current
              None Sample.mixed_result (-1)%float eq_refl) as [Hone Hall].
  split; [|exact Hall].
  exact (Hone "D" _ (or_intror (or_intror (or_introl eq_refl))) eq_refl).
Defined.

(** X6: the threshold is exclusive: a metric whose [abs(change_pct)]
    equals [threshold * 100] is not reported, in any comparison set. *)
Theorem threshold_is_exclusive
    (cs : dict comparison) (threshold : float) :
  check_regression cs threshold
  = check_regression
      (filter (fun kv => negb (threshold * 100 =? abs (snd kv).(change_pct))%float)
         cs) threshold.
Proof.
  apply (check_regression_without threshold
           (fun d => (threshold * 100 =? abs d.(change_pct))%float)).
  intros kv _ Heq. unfold is_regression, gt.
  rewrite (FloatOrder.eqb_not_ltb _ _ Heq). apply andb_false_r.
Qed.

(** X7: NaN is never a regression: with a threshold that is NaN
    ([--fail-on-regression nan]) nothing is reported, and at any
    threshold an entry whose [change_pct] is NaN is not reported. *)
Theorem nan_never_reported (cs : dict comparison) (threshold : float) :
  (is_nan threshold = true -> check_regression cs threshold = [])
  /\ check_regression cs threshold
     = check_regression
         (filter (fun kv => negb (is_nan (snd kv).(change_pct))) cs) threshold.
Proof.
  split.
  - intros ->%FloatOrder.is_nan_eq. apply check_regression_none.
    intros kv _. unfold is_regression, gt.
    change (nan * 100)%float with nan.
    rewrite FloatOrder.ltb_nan_l. apply andb_false_r.
  - apply (check_regression_without threshold (fun d => is_nan d.(change_pct))).
    intros kv _ Hnan%FloatOrder.is_nan_eq. unfold is_regression, gt.
    rewrite Hnan. change (abs nan) with nan.
    rewrite FloatOrder.ltb_nan_r. apply andb_false_r.
Qed.

Lemma nan_never_reported_witness :
  check_regression Sample.mixed_result nan = [].
Proof.
  exact (proj1 (nan_never_reported Sample.mixed_result nan) eq_refl).
Defined.

(* ================================================================= *)
(** * When extraction raises *)

Lemma method_get_raises_iff obj key default :
  (exists e, method_get obj key default = Raise e) <-> is_mapping obj = false.
Proof.
  destruct obj; simpl; split; intros H; try reflexivity; eauto;
    try discriminate.
  now destruct H.
Qed.

(** X8: [get_metric_ratio] raises exactly when the object it asks first
    (the summary, for [EffectDiscipline] and [Safety] on a document that
    has one; the [metrics] otherwise) is there and is no mapping; the
    exception is then [AttributeError]. A summary that is no mapping does
    no harm to the other metrics, and an entry of [metrics] of any type
    is accepted. *)
Theorem get_metric_ratio_raises_iff (data : dict value) (metric : string) :
  get_metric_ratio data metric = Raise AttributeError
  <-> exists obj, consulted data metric = Some obj /\ is_mapping obj = false.
Proof.
  unfold consulted.
  destruct (lookup "summary" data) as [summary|] eqn:Hsum.
  - destruct (summary_key metric) as [key|] eqn:Hkey.
    + rewrite (get_metric_ratio_summary_step _ _ _ _ Hsum Hkey). split.
      * intros H. exists summary. split; [reflexivity|].
        apply (method_get_raises_iff summary key VNone). eauto.
      * intros (obj & [= <-] & Hobj). now destruct summary.
    + rewrite get_metric_ratio_metrics_step
        by (unfold reads_metrics; now rewrite Hsum, Hkey).
      destruct (lookup "metrics" data) as [metrics|].
      * split.
        -- intros H. exists metrics. split; [reflexivity|].
           destruct metrics; try reflexivity. simpl in H.
           destruct (lookup metric d) as [[]|]; discriminate.
        -- intros (obj & [= <-] & Hobj). now destruct metrics.
      * split; [discriminate | intros (obj & Habs & _); discriminate].
  - rewrite get_metric_ratio_metrics_step
      by (unfold reads_metrics; now rewrite Hsum).
    destruct (lookup "metrics" data) as [metrics|].
    + split.
      * intros H. exists metrics. split; [reflexivity|].
        destruct metrics; try reflexivity. simpl in H.
        destruct (lookup metric d) as [[]|]; discriminate.
      * intros (obj & [= <-] & Hobj). now destruct metrics.
    + split; [discriminate | intros (obj & Habs & _); discriminate].
Qed.

Lemma get_metric_ratio_raises_iff_witness :
  get_metric_ratio More.broken_summary "Safety" = Raise AttributeError
  /\ exists obj, consulted More.broken_summary "Safety" = Some obj
                 /\ is_mapping obj = false.
Proof.
  destruct (get_metric_ratio_raises_iff More.broken_summary "Safety")
    as [Hthere Hback].
  assert (Hbroken : exists obj, consulted More.broken_summary "Safety" = Some obj
                                /\ is_mapping obj = false)
    by (exists (VNum 5); split; reflexivity).
  split; [exact (Hback Hbroken) | exact (Hthere (Hback Hbroken))].
Defined.

(* ================================================================= *)
(** * Every run of the driver *)

Lemma failed_load_run (w : world) (Which which path : string) (e : exn)
    (k : dict value -> Proc.t unit) :
  load w path = Raise e ->
  Proc.run (data <~ load_or_exit w Which which path ;; k data)
  = failed_load Which which path e.
Proof.
  intros H. unfold load_or_exit, load_json. rewrite H.
  destruct e; reflexivity.
Qed.

(** [main] does what [main_outcome] describes. *)
Lemma main_run_outcome w args : Proc.run (main w args) = main_outcome w args.
Proof.
  unfold main_outcome.
  destruct (load w args.(Args.baseline)) as [base|e] eqn:Hb.
  2:{ unfold main. now rewrite (failed_load_run _ _ _ _ _ _ Hb). }
  destruct (load w args.(Args.current)) as [cur|e] eqn:Hc.
  2:{ unfold main, load_or_exit, load_json. rewrite Hb, Hc.
      destruct e; reflexivity. }
  destruct (compare_results base cur args.(Args.metric)) as [cs|e] eqn:Hcs.
  - destruct cs as [|kv rest].
    + now rewrite (main_loaded _ _ _ _ Hb Hc), Hcs.
    + assert (Hne : kv :: rest <> []) by discriminate.
      now rewrite (main_run _ _ _ _ _ Hb Hc Hcs Hne).
  - now rewrite (main_loaded _ _ _ _ Hb Hc), Hcs.
Qed.





Lemma Printed_not_Written lines p c :
  ~ In (Proc.Written p c) (map Proc.Printed lines).
Proof. intros (line & Habs & _)%in_map_iff. discriminate. Qed.

Lemma regression_stage_printed cs fail_on_regression :
  exists lines, regression_stage cs fail_on_regression = map Proc.Printed lines.
Proof.
  unfold regression_stage. destruct fail_on_regression as [threshold|];
    [|now exists []].
  destruct (check_regression cs threshold) as [|r rest] eqn:Hr.
  - unfold report_regressions. rewrite Hr. now eexists [_].
  - assert (Hfound : check_regression cs threshold <> [])
      by (rewrite Hr; discriminate).
    rewrite (report_regressions_found _ _ Hfound).
    eexists (_ :: map (String.append "  - ") (check_regression cs threshold)).
    simpl. now rewrite map_map.
Qed.

(** X11: the only file a run writes is the one [--output] names, and
    what it writes there is the comparison set of the two documents, a
    set that is not empty; without [--output] (or with an empty path),
    when a document fails to load, or when nothing is comparable, nothing
    is written. *)
Theorem only_the_output_is_written
    (w : world) (args : Args.t) (path : string) (content : dict comparison) :
  In (Proc.Written path content) (fst (Proc.run (main w args))) ->
  truthy args.(Args.output) = Some path
  /\ w.(write_error) path = None
  /\ content <> []
  /\ exists base cur,
       load w args.(Args.baseline) = Ok base
       /\ load w args.(Args.current) = Ok cur
       /\ compare_results base cur args.(Args.metric) = Ok content.
Proof.
  rewrite main_run_outcome. unfold main_outcome.
  destruct (load w args.(Args.baseline)) as [base|e];
    [|destruct e; simpl; intuition discriminate].
  destruct (load w args.(Args.current)) as [cur|e];
    [|destruct e; simpl; intuition discriminate].
  destruct (compare_results base cur args.(Args.metric)) as [[|kv rest]|e]
    eqn:Hcs; [simpl; intuition discriminate | | simpl; tauto].
  unfold compared_outcome.
  destruct (regression_stage_printed (kv :: rest) args.(Args.fail_on_regression))
    as [lines ->].
  destruct (truthy args.(Args.output)) as [p|].
  - destruct (w.(write_error) p) as [e|] eqn:Hw; cbn [fst].
    + intros H. now apply Printed_not_Written in H.
    + intros [H|[H|H]]%in_app_or.
      * now apply Printed_not_Written in H.
      * injection H as <- <-.
        split; [reflexivity|]. split; [exact Hw|]. split; [discriminate|].
        now exists base, cur.
      * simpl in H. destruct H as [H|H]; [discriminate|].
        now apply Printed_not_Written in H.
  - cbn [fst]. rewrite <- map_app. intros H.
    now apply Printed_not_Written in H.
Qed.

Lemma only_the_output_is_written_witness :
  truthy (Some "out.json") = Some "out.json"
  /\ Sample.files.(write_error) "out.json" = None
  /\ [("Throughput", Sample.throughput_entry)] <> []
  /\ exists base cur,
       load Sample.files "base.json" = Ok base
       /\ load Sample.files "cur.json" = Ok cur
       /\ compare_results base cur None = Ok [("Throughput", Sample.throughput_entry)].
Proof.
  apply (only_the_output_is_written Sample.files (Sample.command (Some "out.json"))
           "out.json" [("Throughput", Sample.throughput_entry)]).
  vm_compute. do 6 right. now left.
Defined.


(* ================================================================= *)
(** * Documents with nothing in common *)

Lemma compare_each_nothing base cur names : forall comparisons,
  (forall name, In name names ->
     exists vb, get_metric_ratio base name = Ok vb
                /\ get_metric_ratio cur name = Ok VNone) ->
  compare_each base cur (map VStr names) comparisons = Ok comparisons.
Proof.
  induction names as [|n rest IH]; intros comparisons Hnone; [reflexivity|].
  cbn [map]. rewrite compare_each_cons.
  destruct (Hnone n (or_introl eq_refl)) as (vb & Hb & Hc).
  simpl. rewrite Hb, Hc. simpl. rewrite andb_false_r.
  apply IH. intros name Hin. apply Hnone. now right.
Qed.

(** X12: two standard-style documents (no [summary]) that share no
    metric name have nothing to compare: without [--metric] the
    comparison set is empty, and the run prints
    [No comparable metrics found] and exits with code 1. An empty
    [metrics] mapping in the baseline is the extreme case. *)
Theorem nothing_in_common
    (w : world) (args : Args.t) (base cur bm cm : dict value) :
  load w args.(Args.baseline) = Ok base ->
  load w args.(Args.current) = Ok cur ->
  truthy args.(Args.metric) = None ->
  lookup "summary" base = None ->
  lookup "summary" cur = None ->
  lookup "metrics" base = Some (VDict bm) ->
  lookup "metrics" cur = Some (VDict cm) ->
  (forall name, In name (keys bm) -> lookup name cm = None) ->
  compare_results base cur args.(Args.metric) = Ok []
  /\ Proc.run (main w args)
     = ([Proc.Printed "No comparable metrics found"], Proc.Exit 1).
Proof.
  intros Hb Hc Hmode Hbs Hcs Hbm Hcm Hdisjoint.
  assert (Hempty : compare_results base cur args.(Args.metric) = Ok []).
  { unfold compare_results. rewrite Hmode, Hbm, Hcm. simpl.
    replace (map (fun kv => VStr (fst kv)) bm) with (map VStr (keys bm))
      by (unfold keys; now rewrite map_map).
    apply compare_each_nothing. intros name Hin.
    rewrite !get_metric_ratio_metrics_step
      by (unfold reads_metrics; now rewrite ?Hbs, ?Hcs).
    rewrite Hbm, Hcm. simpl. rewrite (Hdisjoint name Hin). simpl.
    destruct (lookup name bm) as [[]|]; simpl; eauto. }
  split; [exact Hempty|].
  now rewrite main_run_outcome; unfold main_outcome; rewrite Hb, Hc, Hempty.
Qed.

Lemma nothing_in_common_witness :
  compare_results (Sample.throughput 2) More.latency_only None = Ok []
  /\ Proc.run
       (main {| load := fun path =>
                  if String.eqb path "base.json" then Ok (Sample.throughput 2)
                  else Ok More.latency_only;
                write_error := fun _ => None |}
          (Sample.plain "base.json" "other.json" None))
     = ([Proc.Printed "No comparable metrics found"], Proc.Exit 1).
Proof.
  apply (nothing_in_common _ (Sample.plain "base.json" "other.json" None)
           (Sample.throughput 2) More.latency_only
           [("Throughput", VDict [("ratio", VNum 2)])] [("Latency", VNum 3)]);
    try reflexivity.
  intros name [<-|[]]. reflexivity.
Defined.

(* ================================================================= *)
(** * The table *)






(* ================================================================= *)
(** * Exit code 1 *)




(* ================================================================= *)
(** * When the comparison raises *)


